(** * tigris-cli: the two import commands and their schema evolution

    Shallow embedding of
    - package [search], file import.go: [evolveIdxSchema] and the [Run]
      closure of [importCmd] ([tigris search import]);
    - package [cmd], file import.go: [evolveSchema] and the [Run] closure of
      [importCmd] ([tigris import]).

    Both commands keep the accumulated schema in the package-level variable
    [sch]; the search command additionally declares the snapshot
    [prevSchema].  The packages they call (schema, client, util, iterate,
    encoding/json) are collaborators: their operations are fields of the
    classes below, and every call to one of them is recorded, with its
    answer, in the list of events a computation produces. *)

From Stdlib Require Import ZArith List String Bool Lia.
Import ListNotations.
Local Open Scope string_scope.
Local Open Scope list_scope.
Local Open Scope Z_scope.

(** ** Data *)

(** [[]byte]; Go's [nil] slice and the empty slice are both [[]], which is
    how [bytes.Equal] and [len] see them. *)
Definition bytes := list Byte.byte.

(** [json.RawMessage] is a [[]byte]. *)
Definition RawMessage := bytes.

(** [bytes.Equal]. *)
Fixpoint bytes_Equal (a b : bytes) : bool :=
  match a, b with
  | [], [] => true
  | x :: a', y :: b' => Byte.eqb x y && bytes_Equal a' b'
  | _, _ => false
  end.

(** Status codes of the client library ([api.Code], an int32), with the
    gRPC numbering. *)
Definition Code_NOT_FOUND : Z := 5.
Definition InvalidArgument : Z := 3.

(** A non-nil Go [error].  The commands only ever distinguish a
    [*driver.Error], of which they read the [Code], from any other error. *)
Inductive error : Type :=
| DriverError (code : Z) (msg : string)
| OtherError (msg : string).

(** The type assertion of [err] to a pointer to [driver.Error]: the code
    when it holds, nothing otherwise. *)
Definition asDriverError (e : error) : option Z :=
  match e with
  | DriverError c _ => Some c
  | OtherError _ => None
  end.

(** ** Collaborators *)

(** Package schema and encoding/json.  [Infer] and [json.Unmarshal] receive
    [&sch] and update it in place: they return the schema they leave behind
    together with their error. *)
Class SchemaOps := {
  Schema : Type;
  Infer : Schema -> string -> list RawMessage -> list string -> list string ->
          Z -> Schema * option error;
  Marshal : Schema -> bytes * option error;
  Unmarshal : bytes -> Schema -> Schema * option error
}.

(** [client.GetSearch()]: the remote search service.  [Srv] is whatever the
    service remembers between calls. *)
Class SearchClient := {
  Srv : Type;
  GetIndex : Srv -> string -> (bytes * option error) * Srv;
  CreateOrUpdateIndex : Srv -> string -> bytes -> option error * Srv;
  Create : Srv -> string -> list RawMessage -> option error * Srv
}.

(** [client.Get().UseDatabase(db)]: the remote database service. *)
Class DbClient := {
  Db : Type;
  DescribeCollection : Db -> string -> string -> (bytes * option error) * Db;
  CreateOrUpdateCollection : Db -> string -> string -> bytes -> option error * Db;
  Insert : Db -> string -> string -> list RawMessage -> option error * Db
}.

(** What a computation did to its collaborators, in order, each call with
    the answer it got. *)
Inductive Event {Sch : Type} : Type :=
| EvInfer (s : Sch) (coll : string) (docs : list RawMessage)
          (primaryKey autoGenerate : list string) (id : Z)
          (s' : Sch) (err : option error)
| EvGetIndex (name : string) (schema : bytes) (err : option error)
| EvCreateOrUpdateIndex (name : string) (b : bytes) (err : option error)
| EvCreate (name : string) (docs : list RawMessage) (err : option error)
| EvDescribeCollection (db coll : string) (schema : bytes) (err : option error)
| EvCreateOrUpdateCollection (db coll : string) (b : bytes) (err : option error)
| EvInsert (db coll : string) (docs : list RawMessage) (err : option error).
Arguments Event : clear implicits.

(** Which calls a list of events holds. *)
Section EventKinds.
Context {Sch : Type}.

Definition isInfer (e : Event Sch) : bool :=
  match e with EvInfer _ _ _ _ _ _ _ _ => true | _ => false end.

Definition isSchemaUpdate (e : Event Sch) : bool :=
  match e with
  | EvCreateOrUpdateIndex _ _ _ | EvCreateOrUpdateCollection _ _ _ _ => true
  | _ => false
  end.

(** A submission of documents to storage. *)
Definition isSubmit (e : Event Sch) : bool :=
  match e with EvCreate _ _ _ | EvInsert _ _ _ _ => true | _ => false end.

Definition submissions (t : list (Event Sch)) : list (Event Sch) :=
  filter isSubmit t.

(** The schema the first call of [schema.Infer] was handed. *)
Fixpoint firstInfer (t : list (Event Sch)) : option Sch :=
  match t with
  | [] => None
  | EvInfer s _ _ _ _ _ _ _ :: _ => Some s
  | _ :: t' => firstInfer t'
  end.

End EventKinds.

(** ** Effects: package state, recorded calls, and process exit *)

(** A computation either comes back with a value or ends the process with
    an error ([util.Fatal]). *)
Inductive Res (A : Type) : Type :=
| Val (a : A)
| Exit (e : error).
Arguments Val {A} a.
Arguments Exit {A} e.

Definition M (E S A : Type) : Type := S -> Res A * S * list E.

Definition ret {E S A} (a : A) : M E S A := fun s => (Val a, s, []).

Definition bind {E S A B} (m : M E S A) (k : A -> M E S B) : M E S B :=
  fun s =>
    match m s with
    | (Val a, s1, t1) => let '(r, s2, t2) := k a s1 in (r, s2, t1 ++ t2)
    | (Exit e, s1, t1) => (Exit e, s1, t1)
    end.

Declare Scope go_scope.
Delimit Scope go_scope with go.
Notation "x <- m ;; k" := (bind m (fun x => k))
  (at level 61, m at next level, right associativity) : go_scope.
Notation "' p <- m ;; k" := (bind m (fun x => match x with p => k end))
  (at level 61, p pattern, m at next level, right associativity) : go_scope.
Notation "m ;; k" := (bind m (fun _ => k))
  (at level 61, right associativity) : go_scope.
Local Open Scope go_scope.

Definition result {E S A} (x : Res A * S * list E) : Res A := fst (fst x).
Definition final {E S A} (x : Res A * S * list E) : S := snd (fst x).
Definition events {E S A} (x : Res A * S * list E) : list E := snd x.

(** Modelled from the spec: [util.Fatal] (package util, not among the
    sources).  The spec calls a serialization failure an unrecoverable
    internal error, and the commands go on using the values guarded by
    [util.Fatal] without looking at [err] again: with a nil error it does
    nothing, with a non-nil one it reports it and ends the process. *)
Definition utilFatal {E S} (err : option error) : M E S unit :=
  match err with
  | None => ret tt
  | Some e => fun s => (Exit e, s, [])
  end.

(** Modelled from the spec: [util.Error] (package util, not among the
    sources).  It logs a non-nil error with the message and hands the error
    back, so a failure is surfaced to the caller unchanged. *)
Definition utilError (err : option error) : option error := err.

(** Modelled from the spec: [iterate.Input] / [iterateInput] (package
    iterate, not among the sources).  It cuts the input into batches and
    calls [fn] on each batch strictly in arrival order; the first non-nil
    error of [fn] ends the iteration and is returned.  [batches] is the
    input already cut. *)
Fixpoint iterateInput {E S} (fn : list RawMessage -> M E S (option error))
    (batches : list (list RawMessage)) : M E S (option error) :=
  match batches with
  | [] => ret None
  | docs :: rest =>
      err <- fn docs ;;
      match err with
      | Some e => ret (Some e)
      | None => iterateInput fn rest
      end
  end.

(** ** Package search: [tigris search import] *)

Module search.

(** The package-level variables that flag parsing sets before [Run] and
    nothing writes afterwards. *)
Record Flags : Type := {
  NoCreate : bool;
  InferenceDepth : Z;
  PrimaryKey : list string;
  AutoGenerate : list string;
  UpdateSchema : bool;
  Append : bool;
  BatchSize : Z;
  CleanUpNULLs : bool;
  CSVDelimiter : string;
  CSVComment : string;
  CSVTrimLeadingSpace : bool;
  CSVNoHeader : bool
}.

(** The values the variables have when no option is given: their
    declarations ([BatchSize int32 = 100], [CleanUpNULLs = true], zero
    values otherwise) and the defaults [init] registers with the flags. *)
Definition initFlags : Flags :=
  {| NoCreate := false; InferenceDepth := 0; PrimaryKey := [];
     AutoGenerate := []; UpdateSchema := false; Append := false;
     BatchSize := 100; CleanUpNULLs := true; CSVDelimiter := "";
     CSVComment := ""; CSVTrimLeadingSpace := true; CSVNoHeader := false |}.

Definition ErrIndexShouldExist : error :=
  OtherError "index should exist to import CSV with no field names".
Definition ErrNoAppend : error :=
  OtherError "index exists. use --append if you need to add documents to existing collection".

Section ImportCmd.
Context {SO : SchemaOps} {SC : SearchClient}.

(** The package-level variables written during [Run], and the service. *)
Record State : Type := {
  sch : Schema;
  prevSchema : bytes;
  srv : Srv
}.

Abbreviation Ev := (Event Schema).
Abbreviation Cmd := (M Ev State).

(** [util.CleanupNULLValues] and [iterate.CSVConfigure]. *)
Variable CleanupNULLValues : RawMessage -> RawMessage.
Variable CSVConfigure : string -> string -> bool -> bool -> option error.

Variable fl : Flags.

(** [schema.Infer(&sch, coll, docs, PrimaryKey, AutoGenerate, id)] *)
Definition schemaInfer (coll : string) (docs : list RawMessage) (id : Z)
  : Cmd (option error) :=
  fun st =>
    let '(s', err) := Infer (sch st) coll docs (PrimaryKey fl) (AutoGenerate fl) id in
    (Val err,
     {| sch := s'; prevSchema := prevSchema st; srv := srv st |},
     [EvInfer (sch st) coll docs (PrimaryKey fl) (AutoGenerate fl) id s' err]).

(** [json.Marshal(sch)] *)
Definition jsonMarshal : Cmd (bytes * option error) :=
  fun st => (Val (Marshal (sch st)), st, []).

(** [json.Unmarshal(data, &sch)] *)
Definition jsonUnmarshal (data : bytes) : Cmd (option error) :=
  fun st =>
    let '(s', err) := Unmarshal data (sch st) in
    (Val err, {| sch := s'; prevSchema := prevSchema st; srv := srv st |}, []).

Definition getPrevSchema : Cmd bytes :=
  fun st => (Val (prevSchema st), st, []).

Definition clientGetIndex (name : string) : Cmd (bytes * option error) :=
  fun st =>
    let '(resp, err, r) := GetIndex (srv st) name in
    (Val (resp, err),
     {| sch := sch st; prevSchema := prevSchema st; srv := r |},
     [EvGetIndex name resp err]).

Definition clientCreateOrUpdateIndex (name : string) (b : bytes)
  : Cmd (option error) :=
  fun st =>
    let '(err, r) := CreateOrUpdateIndex (srv st) name b in
    (Val err,
     {| sch := sch st; prevSchema := prevSchema st; srv := r |},
     [EvCreateOrUpdateIndex name b err]).

Definition clientCreate (name : string) (docs : list RawMessage)
  : Cmd (option error) :=
  fun st =>
    let '(err, r) := Create (srv st) name docs in
    (Val err,
     {| sch := sch st; prevSchema := prevSchema st; srv := r |},
     [EvCreate name docs err]).

(** The inference depth handed to [schema.Infer]:
    [id := len(docs); if InferenceDepth > 0 { id = int(InferenceDepth) }]. *)
Definition inferenceBound (docs : list RawMessage) : Z :=
  let id := Z.of_nat (List.length docs) in
  if InferenceDepth fl >? 0 then InferenceDepth fl else id.

(** [func evolveIdxSchema(ctx, coll, docs) error] *)
Definition evolveIdxSchema (coll : string) (docs : list RawMessage)
  : Cmd (option error) :=
  let id := inferenceBound docs in
  err <- schemaInfer coll docs id ;;
  utilFatal err ;;
  '(b, err) <- jsonMarshal ;;
  utilFatal err ;;
  prev <- getPrevSchema ;;
  if bytes_Equal b prev then ret None
  else
    err <- clientCreateOrUpdateIndex coll b ;;
    ret (utilError err).

(** The guard of the callback: [UpdateSchema || (!found && !NoCreate)]. *)
Definition evolveFirst (found : bool) : bool :=
  UpdateSchema fl || (negb found && negb (NoCreate fl)).

(** The callback up to its first submission:
    [if UpdateSchema || (!found && !NoCreate) {
       if err = evolveIdxSchema(ctx, name, docs); err != nil { return err } }];
    the value is the error the callback returns at once, if any. *)
Definition beforeSubmit (name : string) (found : bool)
    (docs : list RawMessage) : Cmd (option error) :=
  if evolveFirst found then evolveIdxSchema name docs else ret None.

(** The callback handed to [iterate.Input], one call per batch.  [docs] and
    the slice behind [ptr] are the same memory, so the second [Create] sees
    the documents the cleanup loop has overwritten. *)
Definition importBatch (name : string) (found : bool) (docs : list RawMessage)
  : Cmd (option error) :=
  err <- beforeSubmit name found docs ;;
  match err with
  | Some e => ret (Some e)
  | None =>
      err <- clientCreate name docs ;;
      match err with
      | None => ret None
      | Some _ =>
          let docs :=
            if CleanUpNULLs fl then map CleanupNULLValues docs else docs in
          err <- clientCreate name docs ;;
          ret (utilError err)
      end
  end.

(** From [iterate.CSVConfigure] to the end of the closure. *)
Definition importInput (name : string) (found : bool)
    (batches : list (list RawMessage)) : Cmd (option error) :=
  utilFatal (CSVConfigure (CSVDelimiter fl) (CSVComment fl)
               (CSVTrimLeadingSpace fl) (CSVNoHeader fl)) ;;
  iterateInput (importBatch name found) batches.

(** The closure [importCmd.Run] hands to [login.Ensure]; [name] is
    [args[0]] and [batches] the documents of the remaining arguments. *)
Definition Run (name : string) (batches : list (list RawMessage))
  : Cmd (option error) :=
  '(resp, err) <- clientGetIndex name ;;
  match err with
  | None =>
      (if negb (Append fl) then utilFatal (Some ErrNoAppend) else ret tt) ;;
      err <- jsonUnmarshal resp ;;
      utilFatal err ;;
      importInput name true batches
  | Some e =>
      if CSVNoHeader fl then
        utilFatal (Some ErrIndexShouldExist) ;;
        importInput name false batches
      else
        match asDriverError e with
        | None => ret (utilError (Some e))
        | Some code =>
            if (code =? Code_NOT_FOUND) && NoCreate fl
            then ret (utilError (Some e))
            else importInput name false batches
        end
  end.

End ImportCmd.
End search.

(** ** Package cmd: [tigris import] *)

Module cmd.

Record Flags : Type := {
  AutoCreate : bool;
  InferenceDepth : Z;
  PrimaryKey : list string;
  AutoGenerate : list string
}.

Section ImportCmd.
Context {SO : SchemaOps} {DC : DbClient}.

(** The package-level variable [sch], and the service. *)
Record State : Type := {
  sch : Schema;
  srv : Db
}.

Abbreviation Ev := (Event Schema).
Abbreviation Cmd := (M Ev State).

Variable fl : Flags.

(** [schema.Infer(&sch, coll, docs, PrimaryKey, AutoGenerate, id)] *)
Definition schemaInfer (coll : string) (docs : list RawMessage) (id : Z)
  : Cmd (option error) :=
  fun st =>
    let '(s', err) := Infer (sch st) coll docs (PrimaryKey fl) (AutoGenerate fl) id in
    (Val err, {| sch := s'; srv := srv st |},
     [EvInfer (sch st) coll docs (PrimaryKey fl) (AutoGenerate fl) id s' err]).

(** [json.Marshal(sch)] *)
Definition jsonMarshal : Cmd (bytes * option error) :=
  fun st => (Val (Marshal (sch st)), st, []).

(** [json.Unmarshal(data, &sch)] *)
Definition jsonUnmarshal (data : bytes) : Cmd (option error) :=
  fun st =>
    let '(s', err) := Unmarshal data (sch st) in
    (Val err, {| sch := s'; srv := srv st |}, []).

Definition clientDescribeCollection (db coll : string)
  : Cmd (bytes * option error) :=
  fun st =>
    let '(resp, err, r) := DescribeCollection (srv st) db coll in
    (Val (resp, err), {| sch := sch st; srv := r |},
     [EvDescribeCollection db coll resp err]).

Definition clientCreateOrUpdateCollection (db coll : string) (b : bytes)
  : Cmd (option error) :=
  fun st =>
    let '(err, r) := CreateOrUpdateCollection (srv st) db coll b in
    (Val err, {| sch := sch st; srv := r |},
     [EvCreateOrUpdateCollection db coll b err]).

Definition clientInsert (db coll : string) (docs : list RawMessage)
  : Cmd (option error) :=
  fun st =>
    let '(err, r) := Insert (srv st) db coll docs in
    (Val err, {| sch := sch st; srv := r |}, [EvInsert db coll docs err]).

(** [id := len(docs); if InferenceDepth > 0 { id = int(InferenceDepth) }] *)
Definition inferenceBound (docs : list RawMessage) : Z :=
  let id := Z.of_nat (List.length docs) in
  if InferenceDepth fl >? 0 then InferenceDepth fl else id.

(** [func evolveSchema(ctx, db, coll, docs) error] *)
Definition evolveSchema (db coll : string) (docs : list RawMessage)
  : Cmd (option error) :=
  let id := inferenceBound docs in
  err <- schemaInfer coll docs id ;;
  utilFatal err ;;
  '(b, err) <- jsonMarshal ;;
  utilFatal err ;;
  err <- clientCreateOrUpdateCollection db coll b ;;
  ret (utilError err).

(** The test after the failed first [Insert]:
    [!ok || (ep.Code != NOT_FOUND && ep.Code != InvalidArgument) ||
     ep.Code == NOT_FOUND && !AutoCreate]; when it holds the error is
    returned as it is. *)
Definition initialFailureIsFinal (e : error) : bool :=
  match asDriverError e with
  | None => true
  | Some code =>
      (negb (code =? Code_NOT_FOUND) && negb (code =? InvalidArgument))
      || ((code =? Code_NOT_FOUND) && negb (AutoCreate fl))
  end.

(** The callback handed to [iterateInput], one call per batch; [db] and
    [coll] are [args[0]] and [args[1]]. *)
Definition importBatch (db coll : string) (docs : list RawMessage)
  : Cmd (option error) :=
  err <- clientInsert db coll docs ;;
  match err with
  | None => ret None
  | Some e =>
      if initialFailureIsFinal e then ret (utilError (Some e))
      else
        err <- evolveSchema db coll docs ;;
        match err with
        | Some e' => ret (Some e')
        | None =>
            err <- clientInsert db coll docs ;;
            ret (utilError err)
        end
  end.

(** The closure [importCmd.Run] hands to [withLogin]. *)
Definition Run (db coll : string) (batches : list (list RawMessage))
  : Cmd (option error) :=
  '(resp, err) <- clientDescribeCollection db coll ;;
  match err with
  | None =>
      err <- jsonUnmarshal resp ;;
      utilFatal err
  | Some _ => ret tt
  end ;;
  iterateInput (importBatch db coll) batches.

End ImportCmd.
End cmd.

(** ** Package schema: what [Infer] does with the inference depth *)

Section InferModel.
Variable Sch : Type.
(** Structural Type Builder folded over the documents it is given: the
    batch-local schema, or a failure. *)
Variable buildBatch : list RawMessage -> Sch * option error.
(** Field-Type Merger applied field by field to the running schema and the
    batch-local one. *)
Variable mergeSchema : Sch -> Sch -> Sch * option error.
(** Primary-key and autogenerate annotations of the top-level fields. *)
Variable annotate : Sch -> string -> list string -> list string -> Sch.

(** Modelled from the spec: [schema.Infer] (package schema, not among the
    sources), after the steps 1 to 3 of the spec's [Evolve]: build the
    structural types of up to [depth] documents from the start of the batch
    into a batch-local schema, merge it into the running schema, then apply
    the annotations.  A failure of the builder or of the merger is returned
    and ends the call. *)
Definition InferModel (s : Sch) (coll : string) (docs : list RawMessage)
    (primaryKey autoGenerate : list string) (depth : Z) : Sch * option error :=
  match buildBatch (firstn (Z.to_nat depth) docs) with
  | (_, Some e) => (s, Some e)
  | (local, None) =>
      match mergeSchema s local with
      | (s', Some e) => (s', Some e)
      | (s', None) => (annotate s' coll primaryKey autoGenerate, None)
      end
  end.

Variable marshal : Sch -> bytes * option error.
Variable unmarshal : bytes -> Sch -> Sch * option error.

Definition ModelOps : SchemaOps :=
  {| Schema := Sch; Infer := InferModel; Marshal := marshal;
     Unmarshal := unmarshal |}.

End InferModel.

(** ** Test doubles

    Small stand-ins for the collaborators, used to run the commands on
    concrete inputs. *)

Module TestDouble.

Definition raw (s : string) : RawMessage := list_byte_of_string s.

(** A schema is the list of the distinct documents seen so far; a document
    equal to [conflictDoc] cannot be merged. *)
Definition key (k : string) : bytes := Byte.x22 :: raw k ++ [Byte.x22].

Definition conflictDoc : RawMessage := raw "{" ++ key "id" ++ raw ":{}}".

Definition seen (d : RawMessage) (s : list RawMessage) : bool :=
  existsb (bytes_Equal d) s.

Definition buildBatch (docs : list RawMessage) : list RawMessage * option error :=
  if seen conflictDoc docs
  then ([], Some (OtherError "schema conflict"))
  else (docs, None).

Definition mergeSchema (s local : list RawMessage)
  : list RawMessage * option error :=
  (fold_left (fun acc d => if seen d acc then acc else acc ++ [d]) local s, None).

Definition marshal (s : list RawMessage) : bytes * option error :=
  (raw "[" ++ List.concat s ++ raw "]", None).

Definition unmarshal (b : bytes) (_ : list RawMessage)
  : list RawMessage * option error :=
  ([b], None).

Definition schemaOps : SchemaOps :=
  ModelOps (list RawMessage) buildBatch mergeSchema (fun s _ _ _ => s)
           marshal unmarshal.

(** A scripted service: the answer to the lookup, and the answers to the
    following calls in order (success once the script is used up). *)
Record Script : Type := {
  lookup : bytes * option error;
  answers : list (option error)
}.

Definition next (s : Script) : option error * Script :=
  match answers s with
  | [] => (None, s)
  | a :: rest => (a, {| lookup := lookup s; answers := rest |})
  end.

Definition searchClient : SearchClient :=
  {| Srv := Script;
     GetIndex := fun s _ => (lookup s, s);
     CreateOrUpdateIndex := fun s _ _ => next s;
     Create := fun s _ _ => next s |}.

Definition dbClient : DbClient :=
  {| Db := Script;
     DescribeCollection := fun s _ _ => (lookup s, s);
     CreateOrUpdateCollection := fun s _ _ _ => next s;
     Insert := fun s _ _ _ => next s |}.

(** Stand-in for [util.CleanupNULLValues]: the document [null] becomes
    [{}], any other document is left as it is. *)
Definition cleanup (d : RawMessage) : RawMessage :=
  if bytes_Equal d (raw "null") then raw "{}" else d.

Definition csvOk (_ _ : string) (_ _ : bool) : option error := None.

Definition notFound : error := DriverError Code_NOT_FOUND "index not found".
Definition invalid : error := DriverError InvalidArgument "invalid document".
Definition unavailable : error := OtherError "connection refused".

Definition searchFlags (update append cleanupNulls : bool) : search.Flags :=
  {| search.NoCreate := false; search.InferenceDepth := 0;
     search.PrimaryKey := []; search.AutoGenerate := [];
     search.UpdateSchema := update; search.Append := append;
     search.BatchSize := 100; search.CleanUpNULLs := cleanupNulls;
     search.CSVDelimiter := ""; search.CSVComment := "";
     search.CSVTrimLeadingSpace := true; search.CSVNoHeader := false |}.

(** Appending to an index without any schema management: no
    [--update-schema], and [--no-create-index]. *)
Definition appendOnly : search.Flags :=
  {| search.NoCreate := true; search.InferenceDepth := 0;
     search.PrimaryKey := []; search.AutoGenerate := [];
     search.UpdateSchema := false; search.Append := true;
     search.BatchSize := 100; search.CleanUpNULLs := true;
     search.CSVDelimiter := ""; search.CSVComment := "";
     search.CSVTrimLeadingSpace := true; search.CSVNoHeader := false |}.

Definition cmdFlags (autoCreate : bool) (depth : Z) : cmd.Flags :=
  {| cmd.AutoCreate := autoCreate; cmd.InferenceDepth := depth;
     cmd.PrimaryKey := []; cmd.AutoGenerate := [] |}.

Definition searchState (s : list RawMessage) (script : Script)
  : @search.State schemaOps searchClient :=
  @search.Build_State schemaOps searchClient s [] script.

Definition cmdState (s : list RawMessage) (script : Script)
  : @cmd.State schemaOps dbClient :=
  @cmd.Build_State schemaOps dbClient s script.

Definition doc1 : RawMessage := raw "{" ++ key "id" ++ raw ":1}".
Definition doc2 : RawMessage :=
  raw "{" ++ key "id" ++ raw ":2," ++ key "name" ++ raw ":null}".

(** A service on which the lookup finds nothing and the later calls answer
    as scripted; and one on which the lookup finds [schema]. *)
Definition scripted (l : list (option error)) : Script :=
  {| lookup := ([], Some notFound); answers := l |}.
Definition existing (schema : bytes) (l : list (option error)) : Script :=
  {| lookup := (schema, None); answers := l |}.

Definition doc3 : RawMessage := raw "{" ++ key "age" ++ raw ":30}".

(** Collaborators that fail where [schemaOps] and [csvOk] cannot. *)
Definition brokenJSON : SchemaOps :=
  {| Schema := list RawMessage;
     Infer := InferModel (list RawMessage) buildBatch mergeSchema
                (fun s _ _ _ => s);
     Marshal := fun _ => ([], Some (OtherError "unsupported value"));
     Unmarshal := fun _ s => (s, Some (OtherError "unexpected end of JSON input")) |}.

Definition csvBad (_ _ : string) (_ _ : bool) : option error :=
  Some (OtherError "invalid delimiter").

(** Services that hold the index or collection with schema [[]] and accept
    every call. *)
Definition acceptingSearch : SearchClient :=
  {| Srv := unit;
     GetIndex := fun _ _ => ((raw "[]", None), tt);
     CreateOrUpdateIndex := fun _ _ _ => (None, tt);
     Create := fun _ _ _ => (None, tt) |}.

Definition acceptingDb : DbClient :=
  {| Db := unit;
     DescribeCollection := fun _ _ _ => ((raw "[]", None), tt);
     CreateOrUpdateCollection := fun _ _ _ _ => (None, tt);
     Insert := fun _ _ _ _ => (None, tt) |}.

(** A lookup that fails with [e]. *)
Definition lookupFails (e : error) : Script :=
  {| lookup := ([], Some e); answers := [] |}.

Definition internal : error := DriverError 13 "internal error".

(** Importing a CSV without header line. *)
Definition noHeader : search.Flags :=
  {| search.NoCreate := false; search.InferenceDepth := 0;
     search.PrimaryKey := []; search.AutoGenerate := [];
     search.UpdateSchema := false; search.Append := false;
     search.BatchSize := 100; search.CleanUpNULLs := true;
     search.CSVDelimiter := ","; search.CSVComment := "";
     search.CSVTrimLeadingSpace := true; search.CSVNoHeader := true |}.

End TestDouble.

(** ** Package scaffold: java.go *)

Module scaffold.

(** [strings.HasPrefix]. *)
Fixpoint HasPrefix (s prefix : string) {struct prefix} : bool :=
  match prefix with
  | EmptyString => true
  | String a prefix' =>
      match s with
      | EmptyString => false
      | String b s' => Ascii.eqb a b && HasPrefix s' prefix'
      end
  end.

(** [strings.Contains(s, substr)]: whether [substr] starts at some
    position of [s], looking from the left. *)
Fixpoint Contains (s substr : string) : bool :=
  if HasPrefix s substr then true
  else
    match s with
    | EmptyString => false
    | String _ s' => Contains s' substr
    end.

(** Method [HasTime(schema string) bool] of [JSONToJava]; the receiver is
    not used. *)
Definition HasTime (schema : string) : bool :=
  Contains schema "private Date".

(** Method [HasUUID(schema string) bool] of [JSONToJava]. *)
Definition HasUUID (schema : string) : bool :=
  Contains schema "private UUID".

End scaffold.

(** * Properties *)

(** ** [bytes.Equal] decides equality *)

Lemma bytes_Equal_refl (a : bytes) : bytes_Equal a a = true.
Proof.
  induction a as [|x a IH]; simpl; [reflexivity|].
  rewrite IH, andb_true_r. apply Byte.byte_dec_lb. reflexivity.
Qed.

Lemma bytes_Equal_eq (a b : bytes) : bytes_Equal a b = true <-> a = b.
Proof.
  split.
  - revert b. induction a as [|x a IH]; intros [|y b]; simpl; try discriminate.
    + reflexivity.
    + intros H. apply andb_true_iff in H as [Hx Hab].
      apply Byte.byte_dec_bl in Hx. f_equal; auto.
  - intros ->. apply bytes_Equal_refl.
Qed.

Lemma bytes_Equal_nil_r (b : bytes) : b <> [] -> bytes_Equal b [] = false.
Proof. destruct b; [congruence | reflexivity]. Qed.

(** ** Facts about lists of events *)

Section Events.
Context {Sch : Type}.

Lemma firstInfer_app (t1 t2 : list (Event Sch)) :
  firstInfer (t1 ++ t2) =
  match firstInfer t1 with Some s => Some s | None => firstInfer t2 end.
Proof.
  induction t1 as [|e t1 IH]; simpl; [reflexivity|].
  destruct e; auto.
Qed.

(** Where the first submission sits in a list of events is determined. *)
Lemma first_submit_unique (p1 p2 q1 q2 : list (Event Sch)) (a b : Event Sch) :
  p1 ++ a :: q1 = p2 ++ b :: q2 ->
  existsb isSubmit p1 = false -> existsb isSubmit p2 = false ->
  isSubmit a = true -> isSubmit b = true ->
  p1 = p2 /\ a = b /\ q1 = q2.
Proof.
  revert p2. induction p1 as [|x p1 IH]; intros [|y p2]; simpl; intros E H1 H2 Ha Hb.
  - inversion E; auto.
  - inversion E; subst. rewrite Ha in H2. discriminate.
  - inversion E; subst. rewrite Hb in H1. discriminate.
  - injection E as -> E. apply orb_false_iff in H1 as [_ H1].
    apply orb_false_iff in H2 as [_ H2].
    destruct (IH p2 E H1 H2 Ha Hb) as (-> & -> & ->). auto.
Qed.

End Events.

(** ** Package search, step by step *)

Section SearchFacts.
Context {SO : SchemaOps} {SC : SearchClient}.
Variable CleanupNULLValues : RawMessage -> RawMessage.
Variable CSVConfigure : string -> string -> bool -> bool -> option error.
Variable fl : search.Flags.

Ltac go :=
  cbv [search.evolveIdxSchema search.schemaInfer search.jsonMarshal
       search.getPrevSchema search.clientCreateOrUpdateIndex
       search.clientCreate search.clientGetIndex search.jsonUnmarshal
       bind ret utilFatal utilError result final events];
  simpl.

(** What one call of [evolveIdxSchema] does, case by case. *)
Lemma evolveIdxSchema_run (coll : string) (docs : list RawMessage)
    (st : search.State) :
  search.evolveIdxSchema fl coll docs st =
  let id := search.inferenceBound fl docs in
  let '(s1, e1) := Infer (search.sch st) coll docs (search.PrimaryKey fl)
                         (search.AutoGenerate fl) id in
  let ev := EvInfer (search.sch st) coll docs (search.PrimaryKey fl)
                    (search.AutoGenerate fl) id s1 e1 in
  let st1 := search.Build_State s1 (search.prevSchema st) (search.srv st) in
  match e1 with
  | Some e => (Exit e, st1, [ev])
  | None =>
      match Marshal s1 with
      | (_, Some e) => (Exit e, st1, [ev])
      | (b, None) =>
          if bytes_Equal b (search.prevSchema st) then (Val None, st1, [ev])
          else
            let '(e3, r) := CreateOrUpdateIndex (search.srv st) coll b in
            (Val e3, search.Build_State s1 (search.prevSchema st) r,
             [ev; EvCreateOrUpdateIndex coll b e3])
      end
  end.
Proof.
  go. destruct (Infer _ _ _ _ _ _) as [s1 [e|]]; simpl; [reflexivity|].
  destruct (Marshal s1) as [b [e|]]; simpl; [reflexivity|].
  destruct (bytes_Equal b _); simpl; [reflexivity|].
  destruct (CreateOrUpdateIndex _ _ _) as [e3 r]; reflexivity.
Qed.

(** [prevSchema] is read by [evolveIdxSchema] and never written. *)
Lemma evolveIdxSchema_prevSchema (coll : string) (docs : list RawMessage)
    (st : search.State) :
  search.prevSchema (final (search.evolveIdxSchema fl coll docs st)) =
  search.prevSchema st.
Proof.
  rewrite evolveIdxSchema_run. cbv zeta.
  destruct (Infer _ _ _ _ _ _) as [s1 [e|]]; [reflexivity|].
  destruct (Marshal s1) as [b [e|]]; [reflexivity|].
  destruct (bytes_Equal b _); [reflexivity|].
  destruct (CreateOrUpdateIndex _ _ _) as [e3 r]; reflexivity.
Qed.

(** [evolveIdxSchema] submits no documents. *)
Lemma evolveIdxSchema_no_submit (coll : string) (docs : list RawMessage)
    (st : search.State) :
  existsb isSubmit (events (search.evolveIdxSchema fl coll docs st)) = false.
Proof.
  rewrite evolveIdxSchema_run. cbv zeta.
  destruct (Infer _ _ _ _ _ _) as [s1 [e|]]; [reflexivity|].
  destruct (Marshal s1) as [b [e|]]; [reflexivity|].
  destruct (bytes_Equal b _); [reflexivity|].
  destruct (CreateOrUpdateIndex _ _ _) as [e3 r]; reflexivity.
Qed.

(** What one call of the callback does, case by case. *)
Lemma importBatch_run (name : string) (found : bool) (docs : list RawMessage)
    (st : search.State) :
  search.importBatch CleanupNULLValues fl name found docs st =
  let pre := search.beforeSubmit fl name found docs st in
  match result pre with
  | Exit e => (Exit e, final pre, events pre)
  | Val (Some e) => (Val (Some e), final pre, events pre)
  | Val None =>
      let st1 := final pre in
      let '(e1, r1) := Create (search.srv st1) name docs in
      match e1 with
      | None =>
          (Val None,
           search.Build_State (search.sch st1) (search.prevSchema st1) r1,
           events pre ++ [EvCreate name docs None])
      | Some e =>
          let docs' := if search.CleanUpNULLs fl
                       then map CleanupNULLValues docs else docs in
          let '(e2, r2) := Create r1 name docs' in
          (Val e2,
           search.Build_State (search.sch st1) (search.prevSchema st1) r2,
           events pre ++ [EvCreate name docs (Some e); EvCreate name docs' e2])
      end
  end.
Proof.
  unfold search.importBatch.
  unfold bind at 1.
  destruct (search.beforeSubmit fl name found docs st) as [[[[e|]|e] st1] t1];
    cbv [result final events fst snd ret]; cbn [app]; try rewrite app_nil_r; try reflexivity.
  unfold bind at 1. unfold search.clientCreate at 1.
  destruct (Create (search.srv st1) name docs) as [[e|] r1]; cbn.
  - unfold bind, search.clientCreate; cbn.
    destruct (Create r1 name _) as [e2 r2]; reflexivity.
  - reflexivity.
Qed.

(** The callback submits nothing and leaves [prevSchema] alone before its
    first submission. *)
Lemma beforeSubmit_no_submit (name : string) (found : bool)
    (docs : list RawMessage) (st : search.State) :
  existsb isSubmit (events (search.beforeSubmit fl name found docs st)) = false.
Proof.
  unfold search.beforeSubmit. destruct (search.evolveFirst fl found).
  - apply evolveIdxSchema_no_submit.
  - reflexivity.
Qed.

Lemma beforeSubmit_prevSchema (name : string) (found : bool)
    (docs : list RawMessage) (st : search.State) :
  search.prevSchema (final (search.beforeSubmit fl name found docs st)) =
  search.prevSchema st.
Proof.
  unfold search.beforeSubmit. destruct (search.evolveFirst fl found).
  - apply evolveIdxSchema_prevSchema.
  - reflexivity.
Qed.

(** When the new bytes equal the snapshot, [evolveIdxSchema] returns nil
    without calling the service. *)
Lemma evolveIdxSchema_unchanged (coll : string) (docs : list RawMessage)
    (st : search.State) (s1 : Schema) (b : bytes) :
  Infer (search.sch st) coll docs (search.PrimaryKey fl)
        (search.AutoGenerate fl) (search.inferenceBound fl docs) = (s1, None) ->
  Marshal s1 = (b, None) ->
  b = search.prevSchema st ->
  let r := search.evolveIdxSchema fl coll docs st in
  result r = Val None /\
  existsb isSchemaUpdate (events r) = false /\
  search.prevSchema (final r) = search.prevSchema st /\
  search.srv (final r) = search.srv st.
Proof.
  intros HI HM Hb r. subst r. rewrite evolveIdxSchema_run. cbv zeta.
  rewrite HI, HM. subst b. rewrite bytes_Equal_refl. repeat split.
Qed.

(** C1 (the code departs from the claim): when a batch brings new structure,
    so that the serialized schema [b] differs from [prevSchema], and the same
    batch is evolved a second time, adding nothing, the second call of
    [evolveIdxSchema] still calls [CreateOrUpdateIndex] with [b]:
    [prevSchema] was not set by the first call. *)
Theorem evolveIdxSchema_twice_updates_twice (coll : string)
    (docs : list RawMessage) (st : search.State) (s1 : Schema) (b : bytes) :
  let pk := search.PrimaryKey fl in
  let ag := search.AutoGenerate fl in
  let id := search.inferenceBound fl docs in
  Infer (search.sch st) coll docs pk ag id = (s1, None) ->
  Infer s1 coll docs pk ag id = (s1, None) ->
  Marshal s1 = (b, None) ->
  bytes_Equal b (search.prevSchema st) = false ->
  let first := search.evolveIdxSchema fl coll docs st in
  let second := search.evolveIdxSchema fl coll docs (final first) in
  existsb isSchemaUpdate (events first) = true /\
  existsb isSchemaUpdate (events second) = true /\
  exists e2, events second =
             [EvInfer s1 coll docs pk ag id s1 None;
              EvCreateOrUpdateIndex coll b e2].
Proof.
  intros pk ag id H1 H2 HM Hb first second. subst first second.
  rewrite (evolveIdxSchema_run coll docs st). cbv zeta.
  fold pk ag id. rewrite H1, HM, Hb.
  destruct (CreateOrUpdateIndex (search.srv st) coll b) as [e1 r1].
  cbv [final fst snd]. rewrite evolveIdxSchema_run. cbv zeta. cbn [search.sch search.prevSchema search.srv].
  fold pk ag id. rewrite H2, HM, Hb.
  destruct (CreateOrUpdateIndex r1 coll b) as [e2 r2].
  cbn. repeat split. exists e2. reflexivity.
Qed.

(** C2 (the code departs from the claim): when the newly serialized bytes
    [b] differ from [prevSchema], [evolveIdxSchema] calls
    [CreateOrUpdateIndex] with [b] but does not store [b]: [prevSchema] is
    afterwards what it was, and still differs from [b]. *)
Theorem evolveIdxSchema_changed_snapshot_not_stored (coll : string)
    (docs : list RawMessage) (st : search.State) (s1 : Schema) (b : bytes) :
  let pk := search.PrimaryKey fl in
  let ag := search.AutoGenerate fl in
  let id := search.inferenceBound fl docs in
  Infer (search.sch st) coll docs pk ag id = (s1, None) ->
  Marshal s1 = (b, None) ->
  bytes_Equal b (search.prevSchema st) = false ->
  let r := search.evolveIdxSchema fl coll docs st in
  search.prevSchema (final r) = search.prevSchema st /\
  search.prevSchema (final r) <> b /\
  events r =
    [EvInfer (search.sch st) coll docs pk ag id s1 None;
     EvCreateOrUpdateIndex coll b
       (fst (CreateOrUpdateIndex (search.srv st) coll b))].
Proof.
  intros pk ag id HI HM Hb r. subst r.
  rewrite evolveIdxSchema_run. cbv zeta. fold pk ag id. rewrite HI, HM, Hb.
  destruct (CreateOrUpdateIndex (search.srv st) coll b) as [e1 r1].
  cbn. repeat split.
  intros E. rewrite E, bytes_Equal_refl in Hb. discriminate.
Qed.

(** C4: when a call of [evolveIdxSchema] fails, be it in [schema.Infer], in
    [json.Marshal] (both end the process) or in [CreateOrUpdateIndex] (the
    error is returned), [prevSchema] is afterwards what it was before. *)
Theorem evolveIdxSchema_failure_keeps_snapshot (coll : string)
    (docs : list RawMessage) (st : search.State) :
  let r := search.evolveIdxSchema fl coll docs st in
  let inferred := Infer (search.sch st) coll docs (search.PrimaryKey fl)
                        (search.AutoGenerate fl) (search.inferenceBound fl docs) in
  let marshalled := Marshal (fst inferred) in
  result r <> Val None ->
  search.prevSchema (final r) = search.prevSchema st /\
  ((exists e, snd inferred = Some e /\ result r = Exit e) \/
   (exists e, snd inferred = None /\ snd marshalled = Some e /\
              result r = Exit e) \/
   (exists e, snd inferred = None /\ snd marshalled = None /\
              fst (CreateOrUpdateIndex (search.srv st) coll (fst marshalled))
              = Some e /\ result r = Val (Some e))).
Proof.
  intros r inferred marshalled Hfail. split.
  - apply evolveIdxSchema_prevSchema.
  - revert Hfail. subst r inferred marshalled.
    rewrite evolveIdxSchema_run. cbv zeta.
    destruct (Infer _ _ _ _ _ _) as [s1 [e|]]; cbn [fst snd].
    + intros _. left. exists e. auto.
    + destruct (Marshal s1) as [b [e|]]; cbn [fst snd].
      * intros _. right. left. exists e. auto.
      * destruct (bytes_Equal b _).
        -- intros H. exfalso. apply H. reflexivity.
        -- destruct (CreateOrUpdateIndex _ _ _) as [[e|] r1]; cbn.
           ++ intros _. right. right. exists e. auto.
           ++ intros H. exfalso. apply H. reflexivity.
Qed.

(** The callback changes [sch] only before its first submission. *)
Lemma importBatch_sch (name : string) (found : bool) (docs : list RawMessage)
    (st : search.State) :
  search.sch (final (search.importBatch CleanupNULLValues fl name found docs st)) =
  search.sch (final (search.beforeSubmit fl name found docs st)).
Proof.
  rewrite importBatch_run. cbv zeta.
  destruct (search.beforeSubmit fl name found docs st) as [[[[e|]|e] st1] t1];
    cbn; try reflexivity.
  destruct (Create (search.srv st1) name docs) as [[e|] r1].
  - destruct (Create r1 name _) as [e2 r2]. reflexivity.
  - reflexivity.
Qed.

Lemma importBatch_prevSchema (name : string) (found : bool)
    (docs : list RawMessage) (st : search.State) :
  search.prevSchema
    (final (search.importBatch CleanupNULLValues fl name found docs st)) =
  search.prevSchema st.
Proof.
  rewrite <- (beforeSubmit_prevSchema name found docs st).
  rewrite importBatch_run. cbv zeta.
  destruct (search.beforeSubmit fl name found docs st) as [[[[e|]|e] st1] t1];
    cbn; try reflexivity.
  destruct (Create (search.srv st1) name docs) as [[e|] r1].
  - destruct (Create r1 name _) as [e2 r2]. reflexivity.
  - reflexivity.
Qed.

Lemma existsb_submit_app_cons (p q : list (Event Schema)) (a : Event Schema) :
  isSubmit a = true -> existsb isSubmit (p ++ a :: q) = true.
Proof.
  intros Ha. rewrite existsb_app. simpl. rewrite Ha.
  apply orb_true_iff. right. reflexivity.
Qed.

(** C6: when the first submission of a batch fails and [CleanUpNULLs] is
    set, what follows it is exactly one more [Create], of the documents each
    passed through [util.CleanupNULLValues]; its error is what the callback
    returns; no inference runs after the failure and [sch] stays what it was
    when the batch was first submitted. *)
Theorem importBatch_retry_submits_cleaned (name : string) (found : bool)
    (docs : list RawMessage) (st : search.State)
    (pre post : list (Event Schema)) (n : string) (d : list RawMessage)
    (e : error) :
  let r := search.importBatch CleanupNULLValues fl name found docs st in
  search.CleanUpNULLs fl = true ->
  events r = pre ++ EvCreate n d (Some e) :: post ->
  existsb isSubmit pre = false ->
  n = name /\ d = docs /\
  (exists e2, post = [EvCreate name (map CleanupNULLValues docs) e2] /\
              result r = Val (utilError e2)) /\
  existsb isInfer post = false /\
  search.sch (final r) =
  search.sch (final (search.beforeSubmit fl name found docs st)).
Proof.
  intros r Hclean Hev Hpre.
  assert (Hsch := importBatch_sch name found docs st). fold r in Hsch.
  revert Hev. subst r. rewrite importBatch_run in *. cbv zeta in *.
  pose proof (beforeSubmit_no_submit name found docs st) as Hno.
  destruct (search.beforeSubmit fl name found docs st) as [[[[e0|]|e0] st1] t1];
    cbn [result final events fst snd] in *.
  - intros E. rewrite E, existsb_submit_app_cons in Hno by reflexivity.
    discriminate.
  - destruct (Create (search.srv st1) name docs) as [[e1|] r1].
    + rewrite Hclean in *.
      destruct (Create r1 name (map CleanupNULLValues docs)) as [e2 r2].
      cbn [result final events fst snd] in *. intros E.
      apply first_submit_unique in E; auto.
      destruct E as (_ & Ea & <-). injection Ea as <- <- <-.
      repeat split; auto. exists e2. auto.
    + cbn [result final events fst snd] in *. intros E.
      apply first_submit_unique in E; auto.
      destruct E as (_ & Ea & _). discriminate.
  - intros E. rewrite E, existsb_submit_app_cons in Hno by reflexivity.
    discriminate.
Qed.

(** What the closure does once [GetIndex] has answered without error. *)
Lemma Run_index_exists (name : string) (batches : list (list RawMessage))
    (st : search.State) (resp : bytes) (r : Srv) :
  GetIndex (search.srv st) name = (resp, None, r) ->
  search.Run CleanupNULLValues CSVConfigure fl name batches st =
  let ev := EvGetIndex name resp None in
  if negb (search.Append fl)
  then (Exit search.ErrNoAppend,
        search.Build_State (search.sch st) (search.prevSchema st) r, [ev])
  else
    let '(s0, eu) := Unmarshal resp (search.sch st) in
    let st0 := search.Build_State s0 (search.prevSchema st) r in
    match eu with
    | Some e => (Exit e, st0, [ev])
    | None =>
        match CSVConfigure (search.CSVDelimiter fl) (search.CSVComment fl)
                (search.CSVTrimLeadingSpace fl) (search.CSVNoHeader fl) with
        | Some e => (Exit e, st0, [ev])
        | None =>
            let x := iterateInput
                       (search.importBatch CleanupNULLValues fl name true)
                       batches st0 in
            (result x, final x, ev :: events x)
        end
    end.
Proof.
  intros HG. unfold search.Run. unfold bind at 1.
  unfold search.clientGetIndex. rewrite HG. cbn [negb].
  destruct (search.Append fl); cbn [negb].
  - unfold bind at 1. cbn [ret]. unfold bind at 1.
    unfold search.jsonUnmarshal. cbn [search.sch search.prevSchema search.srv].
    destruct (Unmarshal resp (search.sch st)) as [s0 [e|]].
    + unfold bind at 1. cbn. reflexivity.
    + unfold bind at 1. cbn [utilFatal ret].
      unfold search.importInput. unfold bind at 1.
      destruct (CSVConfigure _ _ _ _) as [e|]; cbn [utilFatal ret].
      * reflexivity.
      * destruct (iterateInput _ batches _) as [[x1 x2] x3]. reflexivity.
  - unfold bind at 1. cbn. reflexivity.
Qed.

(** C9: when [GetIndex] finds the index and [Append] is not set, the
    closure ends the process with [ErrNoAppend] after that single lookup:
    nothing is submitted, no schema update is issued, no inference runs, and
    [sch] and [prevSchema] are what they were. *)
Theorem Run_index_exists_without_append (name : string)
    (batches : list (list RawMessage)) (st : search.State)
    (resp : bytes) (r : Srv) :
  GetIndex (search.srv st) name = (resp, None, r) ->
  search.Append fl = false ->
  let x := search.Run CleanupNULLValues CSVConfigure fl name batches st in
  result x = Exit search.ErrNoAppend /\
  events x = [EvGetIndex name resp None] /\
  submissions (events x) = [] /\
  existsb isSchemaUpdate (events x) = false /\
  search.sch (final x) = search.sch st /\
  search.prevSchema (final x) = search.prevSchema st.
Proof.
  intros HG HA x. subst x. rewrite (Run_index_exists _ _ _ _ _ HG).
  rewrite HA. cbn. repeat split.
Qed.



End SearchFacts.

(** ** The batch loop *)

Section Iteration.
Context {Sch S : Type}.
Variable proj : S -> Sch.
Variable fn : list RawMessage -> M (Event Sch) S (option error).

(** If the first inference of a batch is handed the schema of the state the
    batch starts in, and a batch without inference leaves that schema alone,
    then the first inference of the whole loop is handed the schema the loop
    starts with. *)
Lemma iterateInput_firstInfer :
  (forall docs st s, firstInfer (events (fn docs st)) = Some s -> s = proj st) ->
  (forall docs st, firstInfer (events (fn docs st)) = None ->
                   proj (final (fn docs st)) = proj st) ->
  forall batches st s,
    firstInfer (events (iterateInput fn batches st)) = Some s -> s = proj st.
Proof.
  intros Hsome Hnone batches.
  induction batches as [|docs rest IH]; intros st s; simpl.
  - discriminate.
  - unfold bind at 1.
    pose proof (Hsome docs st) as H1. pose proof (Hnone docs st) as H2.
    destruct (fn docs st) as [[[[e|]|e] st1] t1];
      cbn [events final result fst snd ret] in *.
    + rewrite app_nil_r. apply H1.
    + destruct (iterateInput fn rest st1) as [[x1 x2] x3] eqn:Hx.
      cbn [events snd]. rewrite firstInfer_app.
      destruct (firstInfer t1) as [s1|] eqn:Ht.
      * intros E. injection E as <-. apply H1. reflexivity.
      * intros E. rewrite <- (H2 eq_refl). apply IH. rewrite Hx. exact E.
    + apply H1.
Qed.

End Iteration.

Section SearchSeed.
Context {SO : SchemaOps} {SC : SearchClient}.
Variable CleanupNULLValues : RawMessage -> RawMessage.
Variable CSVConfigure : string -> string -> bool -> bool -> option error.
Variable fl : search.Flags.

Lemma search_beforeSubmit_shape (name : string) (found : bool)
    (docs : list RawMessage) (st : search.State) :
  let pre := search.beforeSubmit fl name found docs st in
  (events pre = [] /\ search.sch (final pre) = search.sch st) \/
  firstInfer (events pre) = Some (search.sch st).
Proof.
  unfold search.beforeSubmit. destruct (search.evolveFirst fl found).
  - right. rewrite evolveIdxSchema_run. cbv zeta.
    destruct (Infer _ _ _ _ _ _) as [s1 [e|]]; [reflexivity|].
    destruct (Marshal s1) as [b [e|]]; [reflexivity|].
    destruct (bytes_Equal b _); [reflexivity|].
    destruct (CreateOrUpdateIndex _ _ _) as [e3 r]; reflexivity.
  - left. split; reflexivity.
Qed.

Lemma search_importBatch_events (name : string) (found : bool)
    (docs : list RawMessage) (st : search.State) :
  exists t,
    events (search.importBatch CleanupNULLValues fl name found docs st) =
    events (search.beforeSubmit fl name found docs st) ++ t /\
    firstInfer t = None.
Proof.
  rewrite importBatch_run. cbv zeta.
  destruct (search.beforeSubmit fl name found docs st) as [[[[e|]|e] st1] t1];
    cbn [result final events fst snd].
  - exists []. rewrite app_nil_r. auto.
  - destruct (Create (search.srv st1) name docs) as [[e|] r1].
    + destruct (Create r1 name _) as [e2 r2]. eexists; split; reflexivity.
    + eexists; split; reflexivity.
  - exists []. rewrite app_nil_r. auto.
Qed.

Lemma search_importBatch_firstInfer_some (name : string) (found : bool)
    (docs : list RawMessage) (st : search.State) (s : Schema) :
  firstInfer (events (search.importBatch CleanupNULLValues fl name found docs st))
  = Some s -> s = search.sch st.
Proof.
  destruct (search_importBatch_events name found docs st) as (t & -> & Ht).
  rewrite firstInfer_app.
  destruct (search_beforeSubmit_shape name found docs st) as [[-> _]| ->].
  - simpl. congruence.
  - congruence.
Qed.

Lemma search_importBatch_firstInfer_none (name : string) (found : bool)
    (docs : list RawMessage) (st : search.State) :
  firstInfer (events (search.importBatch CleanupNULLValues fl name found docs st))
  = None ->
  search.sch (final (search.importBatch CleanupNULLValues fl name found docs st))
  = search.sch st.
Proof.
  rewrite importBatch_sch.
  destruct (search_importBatch_events name found docs st) as (t & -> & Ht).
  rewrite firstInfer_app.
  destruct (search_beforeSubmit_shape name found docs st) as [[_ ->]| ->].
  - reflexivity.
  - discriminate.
Qed.

(** In a session that found the index, the first inference, if there is
    one, is handed the schema unmarshaled from the service's answer. *)
Lemma search_Run_seed (name : string) (batches : list (list RawMessage))
    (st : search.State) (resp : bytes) (r : Srv) (s : Schema) :
  GetIndex (search.srv st) name = (resp, None, r) ->
  firstInfer (events (search.Run CleanupNULLValues CSVConfigure fl name batches st))
  = Some s ->
  s = fst (Unmarshal resp (search.sch st)).
Proof.
  intros HG. rewrite (Run_index_exists _ _ _ _ _ _ _ _ HG). cbv zeta.
  destruct (negb (search.Append fl)); [discriminate|].
  destruct (Unmarshal resp (search.sch st)) as [s0 [e|]]; [discriminate|].
  destruct (CSVConfigure _ _ _ _); [discriminate|].
  cbn [events snd fst firstInfer]. intros H.
  apply (iterateInput_firstInfer search.sch _
           (search_importBatch_firstInfer_some name true)
           (search_importBatch_firstInfer_none name true)) in H.
  exact H.
Qed.

(** [prevSchema] is nil when the process starts and is what it was after
    any number of batches and after the whole closure. *)
Lemma iterateInput_prevSchema (name : string) (found : bool)
    (batches : list (list RawMessage)) (st : search.State) :
  search.prevSchema
    (final (iterateInput (search.importBatch CleanupNULLValues fl name found)
              batches st)) = search.prevSchema st.
Proof.
  revert st. induction batches as [|docs rest IH]; intros st; simpl.
  - reflexivity.
  - unfold bind at 1.
    pose proof (importBatch_prevSchema CleanupNULLValues fl name found docs st)
      as H.
    destruct (search.importBatch CleanupNULLValues fl name found docs st)
      as [[[[e|]|e] st1] t1]; cbn [final fst snd ret] in *; try exact H.
    specialize (IH st1).
    destruct (iterateInput _ rest st1) as [[x1 x2] x3].
    cbn [final fst snd] in *. congruence.
Qed.

Lemma Run_prevSchema (name : string) (batches : list (list RawMessage))
    (st : search.State) :
  search.prevSchema
    (final (search.Run CleanupNULLValues CSVConfigure fl name batches st)) =
  search.prevSchema st.
Proof.
  destruct (GetIndex (search.srv st) name) as [[resp [e|]] r] eqn:HG.
  - unfold search.Run. unfold bind at 1. unfold search.clientGetIndex.
    rewrite HG. cbv zeta.
    destruct (search.CSVNoHeader fl); [reflexivity|].
    assert (Hloop : forall st0,
      search.prevSchema
        (final (let '(r0, s2, t2) :=
                  search.importInput CleanupNULLValues CSVConfigure fl name
                    false batches st0 in
                (r0, s2, [EvGetIndex name resp (Some e)] ++ t2)))
      = search.prevSchema st0).
    { intros st0. unfold search.importInput. unfold bind at 1.
      destruct (CSVConfigure _ _ _ _); cbn [utilFatal ret]; [reflexivity|].
      pose proof (iterateInput_prevSchema name false batches st0) as H.
      destruct (iterateInput _ batches st0) as [[x1 x2] x3]. exact H. }
    destruct (asDriverError e) as [code|]; [|reflexivity].
    destruct ((code =? Code_NOT_FOUND) && search.NoCreate fl); [reflexivity|].
    apply (Hloop (search.Build_State (search.sch st) (search.prevSchema st) r)).
  - rewrite (Run_index_exists _ _ _ _ _ _ _ _ HG). cbv zeta.
    destruct (negb (search.Append fl)); [reflexivity|].
    destruct (Unmarshal resp (search.sch st)) as [s0 [e|]]; [reflexivity|].
    destruct (CSVConfigure _ _ _ _); [reflexivity|].
    cbn [final fst snd].
    apply (iterateInput_prevSchema name true batches
             (search.Build_State s0 (search.prevSchema st) r)).
Qed.

End SearchSeed.

(** ** Package cmd, step by step *)

Section CmdFacts.
Context {SO : SchemaOps} {DC : DbClient}.
Variable fl : cmd.Flags.

(** What one call of [evolveSchema] does, case by case. *)
Lemma evolveSchema_run (db coll : string) (docs : list RawMessage)
    (st : cmd.State) :
  cmd.evolveSchema fl db coll docs st =
  let id := cmd.inferenceBound fl docs in
  let '(s1, e1) := Infer (cmd.sch st) coll docs (cmd.PrimaryKey fl)
                         (cmd.AutoGenerate fl) id in
  let ev := EvInfer (cmd.sch st) coll docs (cmd.PrimaryKey fl)
                    (cmd.AutoGenerate fl) id s1 e1 in
  let st1 := cmd.Build_State s1 (cmd.srv st) in
  match e1 with
  | Some e => (Exit e, st1, [ev])
  | None =>
      match Marshal s1 with
      | (_, Some e) => (Exit e, st1, [ev])
      | (b, None) =>
          let '(e3, r) := CreateOrUpdateCollection (cmd.srv st) db coll b in
          (Val e3, cmd.Build_State s1 r,
           [ev; EvCreateOrUpdateCollection db coll b e3])
      end
  end.
Proof.
  cbv [cmd.evolveSchema cmd.schemaInfer cmd.jsonMarshal
       cmd.clientCreateOrUpdateCollection bind ret utilFatal utilError].
  simpl.
  destruct (Infer _ _ _ _ _ _) as [s1 [e|]]; simpl; [reflexivity|].
  destruct (Marshal s1) as [b [e|]]; simpl; [reflexivity|].
  destruct (CreateOrUpdateCollection _ _ _ _) as [e3 r]; reflexivity.
Qed.

Lemma evolveSchema_no_submit (db coll : string) (docs : list RawMessage)
    (st : cmd.State) :
  submissions (events (cmd.evolveSchema fl db coll docs st)) = [].
Proof.
  rewrite evolveSchema_run. cbv zeta.
  destruct (Infer _ _ _ _ _ _) as [s1 [e|]]; [reflexivity|].
  destruct (Marshal s1) as [b [e|]]; [reflexivity|].
  destruct (CreateOrUpdateCollection _ _ _ _) as [e3 r]; reflexivity.
Qed.

Lemma evolveSchema_firstInfer (db coll : string) (docs : list RawMessage)
    (st : cmd.State) :
  firstInfer (events (cmd.evolveSchema fl db coll docs st)) = Some (cmd.sch st).
Proof.
  rewrite evolveSchema_run. cbv zeta.
  destruct (Infer _ _ _ _ _ _) as [s1 [e|]]; [reflexivity|].
  destruct (Marshal s1) as [b [e|]]; [reflexivity|].
  destruct (CreateOrUpdateCollection _ _ _ _) as [e3 r]; reflexivity.
Qed.

(** What one call of the callback does, case by case. *)
Lemma cmd_importBatch_run (db coll : string) (docs : list RawMessage)
    (st : cmd.State) :
  cmd.importBatch fl db coll docs st =
  let '(e1, r1) := Insert (cmd.srv st) db coll docs in
  let ev1 := EvInsert db coll docs e1 in
  let st1 := cmd.Build_State (cmd.sch st) r1 in
  match e1 with
  | None => (Val None, st1, [ev1])
  | Some e =>
      if cmd.initialFailureIsFinal fl e then (Val (Some e), st1, [ev1])
      else
        let x := cmd.evolveSchema fl db coll docs st1 in
        match result x with
        | Exit e' => (Exit e', final x, ev1 :: events x)
        | Val (Some e') => (Val (Some e'), final x, ev1 :: events x)
        | Val None =>
            let '(e2, r2) := Insert (cmd.srv (final x)) db coll docs in
            (Val e2, cmd.Build_State (cmd.sch (final x)) r2,
             ev1 :: events x ++ [EvInsert db coll docs e2])
        end
  end.
Proof.
  unfold cmd.importBatch. unfold bind at 1. unfold cmd.clientInsert at 1.
  destruct (Insert (cmd.srv st) db coll docs) as [[e|] r1]; cbv zeta;
    [|reflexivity].
  destruct (cmd.initialFailureIsFinal fl e); [reflexivity|].
  unfold bind at 1.
  destruct (cmd.evolveSchema fl db coll docs _) as [[[[e'|]|e'] st2] t2];
    cbn [result final events fst snd ret app]; try rewrite app_nil_r;
    try reflexivity.
  unfold bind, cmd.clientInsert. cbn.
  destruct (Insert (cmd.srv st2) db coll docs) as [e2 r2]. reflexivity.
Qed.

(** The test on the failed first submission, spelled out. *)
Lemma initialFailureIsFinal_false (e : error) :
  cmd.initialFailureIsFinal fl e = false <->
  exists code, asDriverError e = Some code /\
    (code = InvalidArgument \/
     (code = Code_NOT_FOUND /\ cmd.AutoCreate fl = true)).
Proof.
  unfold cmd.initialFailureIsFinal, Code_NOT_FOUND, InvalidArgument.
  destruct (asDriverError e) as [code|].
  - split.
    + intros H. exists code. split; [reflexivity|]. revert H.
      destruct (Z.eqb_spec code 5) as [E5|N5],
               (Z.eqb_spec code 3) as [E3|N3],
               (cmd.AutoCreate fl); simpl; intros H;
        try discriminate; auto.
    + intros (c & Hc & H). injection Hc as <-.
      destruct H as [-> | [-> ->]]; reflexivity.
  - split; [discriminate|]. intros (c & Hc & _). discriminate.
Qed.

(** What the closure does, by the answer of [DescribeCollection]. *)
Lemma cmd_Run_run (db coll : string) (batches : list (list RawMessage))
    (st : cmd.State) :
  cmd.Run fl db coll batches st =
  let '(resp, err, r) := DescribeCollection (cmd.srv st) db coll in
  let ev := EvDescribeCollection db coll resp err in
  let loop st0 :=
    let x := iterateInput (cmd.importBatch fl db coll) batches st0 in
    (result x, final x, ev :: events x) in
  match err with
  | Some _ => loop (cmd.Build_State (cmd.sch st) r)
  | None =>
      let '(s0, eu) := Unmarshal resp (cmd.sch st) in
      match eu with
      | Some e => (Exit e, cmd.Build_State s0 r, [ev])
      | None => loop (cmd.Build_State s0 r)
      end
  end.
Proof.
  unfold cmd.Run. unfold bind at 1. unfold cmd.clientDescribeCollection.
  destruct (DescribeCollection (cmd.srv st) db coll) as [[resp [e|]] r];
    cbv zeta.
  - unfold bind at 1. cbn [ret app].
    destruct (iterateInput _ batches _) as [[x1 x2] x3]. reflexivity.
  - unfold bind at 1. unfold bind at 1. unfold cmd.jsonUnmarshal.
    cbn [cmd.sch cmd.srv].
    destruct (Unmarshal resp (cmd.sch st)) as [s0 [e|]]; cbn [utilFatal ret app].
    + reflexivity.
    + destruct (iterateInput _ batches _) as [[x1 x2] x3]. reflexivity.
Qed.

Lemma cmd_importBatch_firstInfer_some (db coll : string)
    (docs : list RawMessage) (st : cmd.State) (s : Schema) :
  firstInfer (events (cmd.importBatch fl db coll docs st)) = Some s ->
  s = cmd.sch st.
Proof.
  rewrite cmd_importBatch_run.
  destruct (Insert (cmd.srv st) db coll docs) as [[e|] r1]; cbv zeta;
    [|discriminate].
  destruct (cmd.initialFailureIsFinal fl e); [discriminate|].
  pose proof (evolveSchema_firstInfer db coll docs
                (cmd.Build_State (cmd.sch st) r1)) as HF.
  destruct (cmd.evolveSchema fl db coll docs _) as [[[[e'|]|e'] st2] t2];
    cbn [result final events fst snd firstInfer cmd.sch] in *.
  - congruence.
  - destruct (Insert (cmd.srv st2) db coll docs) as [e2 r2].
    cbn [events snd firstInfer]. rewrite firstInfer_app, HF. congruence.
  - congruence.
Qed.

Lemma cmd_importBatch_firstInfer_none (db coll : string)
    (docs : list RawMessage) (st : cmd.State) :
  firstInfer (events (cmd.importBatch fl db coll docs st)) = None ->
  cmd.sch (final (cmd.importBatch fl db coll docs st)) = cmd.sch st.
Proof.
  rewrite cmd_importBatch_run.
  destruct (Insert (cmd.srv st) db coll docs) as [[e|] r1]; cbv zeta;
    [|reflexivity].
  destruct (cmd.initialFailureIsFinal fl e); [reflexivity|].
  pose proof (evolveSchema_firstInfer db coll docs
                (cmd.Build_State (cmd.sch st) r1)) as HF.
  destruct (cmd.evolveSchema fl db coll docs _) as [[[[e'|]|e'] st2] t2];
    cbn [result final events fst snd firstInfer cmd.sch] in *.
  - congruence.
  - destruct (Insert (cmd.srv st2) db coll docs) as [e2 r2].
    cbn [events snd firstInfer]. rewrite firstInfer_app, HF. discriminate.
  - congruence.
Qed.

(** In a session that found the collection, the first inference, if there
    is one, is handed the schema unmarshaled from the service's answer. *)
Lemma cmd_Run_seed (db coll : string) (batches : list (list RawMessage))
    (st : cmd.State) (resp : bytes) (r : Db) (s : Schema) :
  DescribeCollection (cmd.srv st) db coll = (resp, None, r) ->
  firstInfer (events (cmd.Run fl db coll batches st)) = Some s ->
  s = fst (Unmarshal resp (cmd.sch st)).
Proof.
  intros HD. rewrite cmd_Run_run, HD. cbv zeta.
  destruct (Unmarshal resp (cmd.sch st)) as [s0 [e|]]; [discriminate|].
  cbn [events snd fst firstInfer]. intros H.
  apply (iterateInput_firstInfer cmd.sch _
           (cmd_importBatch_firstInfer_some db coll)
           (cmd_importBatch_firstInfer_none db coll)) in H.
  exact H.
Qed.

End CmdFacts.

(** ** The two commands side by side *)

Section BothCommands.
Context {SO : SchemaOps} {SC : SearchClient} {DC : DbClient}.
Variable CleanupNULLValues : RawMessage -> RawMessage.
Variable CSVConfigure : string -> string -> bool -> bool -> option error.
Variable sfl : search.Flags.
Variable cfl : cmd.Flags.

(** C3 (as amended): per batch each command submits at most twice and what
    it returns after a retry is the error of the retry.
    [tigris search import]: [evolveIdxSchema] runs before the first
    submission when its guard holds; any failure of the first submission,
    whatever its kind and whatever the options, is followed by exactly one
    more submission (of the cleaned documents when [CleanUpNULLs]), with no
    evolve in between.
    [tigris import]: the first submission is made without evolving; its
    failure is returned as final unless it is a driver error with code
    [InvalidArgument], or with code [NOT_FOUND] while [AutoCreate] is set;
    in those cases [evolveSchema] runs once and, when it returns nil, the
    batch is submitted exactly once more. *)
Theorem importBatch_submits_at_most_twice :
  (forall name found docs (st : search.State),
     let r := search.importBatch CleanupNULLValues sfl name found docs st in
     let pre := search.beforeSubmit sfl name found docs st in
     let docs' := if search.CleanUpNULLs sfl
                  then map CleanupNULLValues docs else docs in
     (List.length (submissions (events r)) <= 2)%nat /\
     submissions (events pre) = [] /\
     ((result pre <> Val None /\ result r = result pre /\
       events r = events pre) \/
      (result pre = Val None /\ result r = Val None /\
       events r = events pre ++ [EvCreate name docs None]) \/
      (exists e e2,
         result pre = Val None /\ result r = Val e2 /\
         events r = events pre ++ [EvCreate name docs (Some e);
                                   EvCreate name docs' e2])))
  /\
  (forall db coll docs (st : cmd.State),
     let r := cmd.importBatch cfl db coll docs st in
     let retried e :=
       exists code, asDriverError e = Some code /\
         (code = InvalidArgument \/
          (code = Code_NOT_FOUND /\ cmd.AutoCreate cfl = true)) in
     (List.length (submissions (events r)) <= 2)%nat /\
     ((result r = Val None /\ events r = [EvInsert db coll docs None]) \/
      (exists e, ~ retried e /\ result r = Val (Some e) /\
                 events r = [EvInsert db coll docs (Some e)]) \/
      (exists e r1,
         retried e /\ Insert (cmd.srv st) db coll docs = (Some e, r1) /\
         let x := cmd.evolveSchema cfl db coll docs
                    (cmd.Build_State (cmd.sch st) r1) in
         submissions (events x) = [] /\
         ((result x <> Val None /\ result r = result x /\
           events r = EvInsert db coll docs (Some e) :: events x) \/
          (result x = Val None /\
           exists e2, result r = Val e2 /\
             events r = EvInsert db coll docs (Some e) :: events x ++
                        [EvInsert db coll docs e2]))))).
Proof.
  split.
  - intros name found docs st r pre docs'.
    assert (Hpre : submissions (events pre) = []).
    { pose proof (beforeSubmit_no_submit sfl name found docs st) as H.
      fold pre in H. unfold submissions.
      destruct (filter isSubmit (events pre)) as [|a l] eqn:Hf; [reflexivity|].
      assert (Hin : In a (filter isSubmit (events pre)))
        by (rewrite Hf; left; reflexivity).
      apply filter_In in Hin as [Hin Ha].
      assert (existsb isSubmit (events pre) = true)
        by (apply existsb_exists; eauto).
      congruence. }
    assert (Hcases :
      (result pre <> Val None /\ result r = result pre /\
       events r = events pre) \/
      (result pre = Val None /\ result r = Val None /\
       events r = events pre ++ [EvCreate name docs None]) \/
      (exists e e2,
         result pre = Val None /\ result r = Val e2 /\
         events r = events pre ++ [EvCreate name docs (Some e);
                                   EvCreate name docs' e2])).
    { subst r. rewrite importBatch_run. cbv zeta. fold pre.
      destruct pre as [[[[e|]|e] st1] t1]; cbn [result final events fst snd].
      + left. repeat split. discriminate.
      + destruct (Create (search.srv st1) name docs) as [[e1|] r1].
        * fold docs'. destruct (Create r1 name docs') as [e2 r2].
          right. right. exists e1, e2. repeat split.
        * right. left. repeat split.
      + left. repeat split. discriminate. }
    split; [|split; assumption].
    destruct Hcases as [(_ & _ & ->) | [(_ & _ & ->) | (e & e2 & _ & _ & ->)]];
      unfold submissions in *; try rewrite filter_app; rewrite Hpre;
      simpl; lia.
  - intros db coll docs st r retried.
    assert (Hcases :
      (result r = Val None /\ events r = [EvInsert db coll docs None]) \/
      (exists e, ~ retried e /\ result r = Val (Some e) /\
                 events r = [EvInsert db coll docs (Some e)]) \/
      (exists e r1,
         retried e /\ Insert (cmd.srv st) db coll docs = (Some e, r1) /\
         let x := cmd.evolveSchema cfl db coll docs
                    (cmd.Build_State (cmd.sch st) r1) in
         submissions (events x) = [] /\
         ((result x <> Val None /\ result r = result x /\
           events r = EvInsert db coll docs (Some e) :: events x) \/
          (result x = Val None /\
           exists e2, result r = Val e2 /\
             events r = EvInsert db coll docs (Some e) :: events x ++
                        [EvInsert db coll docs e2])))).
    { subst r. rewrite cmd_importBatch_run.
      destruct (Insert (cmd.srv st) db coll docs) as [[e|] r1] eqn:HI;
        cbv zeta.
      2:{ left. split; reflexivity. }
      destruct (cmd.initialFailureIsFinal cfl e) eqn:Hfin.
      { right. left. exists e. repeat split.
        intros Hr. apply initialFailureIsFinal_false in Hr. congruence. }
      right. right. exists e, r1. split.
      { apply initialFailureIsFinal_false. exact Hfin. }
      split; [reflexivity|]. split; [apply evolveSchema_no_submit|].
      destruct (cmd.evolveSchema cfl db coll docs _) as [[[[e'|]|e'] st2] t2];
        cbn [result final events fst snd].
      + left. repeat split. discriminate.
      + destruct (Insert (cmd.srv st2) db coll docs) as [e2 r2].
        right. split; [reflexivity|]. exists e2. split; reflexivity.
      + left. repeat split. discriminate. }
    split; [|exact Hcases].
    destruct Hcases as [(_ & ->) | [(e & _ & _ & ->) |
      (e & r1 & _ & _ & Hx & [(_ & _ & ->) | (_ & e2 & _ & ->)])]];
      unfold submissions in *; cbn [filter isSubmit];
      try rewrite filter_app; try rewrite Hx; simpl; lia.
Qed.

(** C5 (as amended): when [schema.Infer] reports a failure, neither
    [evolveIdxSchema] nor [evolveSchema] returns it: [util.Fatal] ends the
    process with that error, right after the inference; nothing is
    serialized or sent to the service, and the failure is not turned into a
    success. *)
Theorem evolve_infer_failure_is_fatal :
  (forall coll docs (st : search.State) s1 e,
     Infer (search.sch st) coll docs (search.PrimaryKey sfl)
           (search.AutoGenerate sfl) (search.inferenceBound sfl docs)
     = (s1, Some e) ->
     search.evolveIdxSchema sfl coll docs st =
     (Exit e, search.Build_State s1 (search.prevSchema st) (search.srv st),
      [EvInfer (search.sch st) coll docs (search.PrimaryKey sfl)
               (search.AutoGenerate sfl) (search.inferenceBound sfl docs)
               s1 (Some e)]))
  /\
  (forall db coll docs (st : cmd.State) s1 e,
     Infer (cmd.sch st) coll docs (cmd.PrimaryKey cfl)
           (cmd.AutoGenerate cfl) (cmd.inferenceBound cfl docs)
     = (s1, Some e) ->
     cmd.evolveSchema cfl db coll docs st =
     (Exit e, cmd.Build_State s1 (cmd.srv st),
      [EvInfer (cmd.sch st) coll docs (cmd.PrimaryKey cfl)
               (cmd.AutoGenerate cfl) (cmd.inferenceBound cfl docs)
               s1 (Some e)])).
Proof.
  split.
  - intros coll docs st s1 e H. rewrite evolveIdxSchema_run. cbv zeta.
    rewrite H. reflexivity.
  - intros db coll docs st s1 e H. rewrite evolveSchema_run. cbv zeta.
    rewrite H. reflexivity.
Qed.

(** C8: when the lookup at the start of a session finds the index or the
    collection, the schema handed to the first [schema.Infer] of the
    session is [sch] after [json.Unmarshal] of the schema the service
    answered; and once the start-up checks have passed, the batch loop
    starts in the state that holds this schema. *)
Theorem existing_schema_seeds_first_evolve :
  (forall name batches (st : search.State) resp r,
     GetIndex (search.srv st) name = (resp, None, r) ->
     let x := search.Run CleanupNULLValues CSVConfigure sfl name batches st in
     let s0 := fst (Unmarshal resp (search.sch st)) in
     (forall s, firstInfer (events x) = Some s -> s = s0) /\
     (search.Append sfl = true ->
      snd (Unmarshal resp (search.sch st)) = None ->
      CSVConfigure (search.CSVDelimiter sfl) (search.CSVComment sfl)
        (search.CSVTrimLeadingSpace sfl) (search.CSVNoHeader sfl) = None ->
      let y := iterateInput
                 (search.importBatch CleanupNULLValues sfl name true) batches
                 (search.Build_State s0 (search.prevSchema st) r) in
      x = (result y, final y, EvGetIndex name resp None :: events y)))
  /\
  (forall db coll batches (st : cmd.State) resp r,
     DescribeCollection (cmd.srv st) db coll = (resp, None, r) ->
     let x := cmd.Run cfl db coll batches st in
     let s0 := fst (Unmarshal resp (cmd.sch st)) in
     (forall s, firstInfer (events x) = Some s -> s = s0) /\
     (snd (Unmarshal resp (cmd.sch st)) = None ->
      let y := iterateInput (cmd.importBatch cfl db coll) batches
                 (cmd.Build_State s0 r) in
      x = (result y, final y, EvDescribeCollection db coll resp None :: events y))).
Proof.
  split.
  - intros name batches st resp r HG x s0. split.
    + intros s. apply search_Run_seed with (r := r). exact HG.
    + intros HA HU HC y. subst x y s0.
      rewrite (Run_index_exists _ _ _ _ _ _ _ _ HG). cbv zeta.
      rewrite HA, HC. cbn [negb].
      destruct (Unmarshal resp (search.sch st)) as [s0 eu].
      cbn [fst snd] in *. subst eu. reflexivity.
  - intros db coll batches st resp r HD x s0. split.
    + intros s. apply cmd_Run_seed with (r := r). exact HD.
    + intros HU y. subst x y s0. rewrite cmd_Run_run, HD. cbv zeta.
      destruct (Unmarshal resp (cmd.sch st)) as [s0 eu].
      cbn [fst snd] in *. subst eu. reflexivity.
Qed.

End BothCommands.

(** ** The inference depth *)

Section DepthBound.

Lemma search_infer_call {SO : SchemaOps} {SC : SearchClient}
    (sfl : search.Flags) (coll : string) (docs : list RawMessage)
    (st : search.State) :
  exists s' err rest,
    events (search.evolveIdxSchema sfl coll docs st) =
    EvInfer (search.sch st) coll docs (search.PrimaryKey sfl)
            (search.AutoGenerate sfl)
            (if search.InferenceDepth sfl >? 0 then search.InferenceDepth sfl
             else Z.of_nat (List.length docs)) s' err :: rest /\
    existsb isInfer rest = false.
Proof.
  rewrite evolveIdxSchema_run. cbv zeta. unfold search.inferenceBound.
  destruct (Infer _ _ _ _ _ _) as [s1 [e|]].
  { do 3 eexists. split; reflexivity. }
  destruct (Marshal s1) as [b [e|]].
  { do 3 eexists. split; reflexivity. }
  destruct (bytes_Equal b _).
  { do 3 eexists. split; reflexivity. }
  destruct (CreateOrUpdateIndex _ _ _) as [e3 r].
  do 3 eexists. split; reflexivity.
Qed.

Lemma cmd_infer_call {SO : SchemaOps} {DC : DbClient}
    (cfl : cmd.Flags) (db coll : string) (docs : list RawMessage)
    (st : cmd.State) :
  exists s' err rest,
    events (cmd.evolveSchema cfl db coll docs st) =
    EvInfer (cmd.sch st) coll docs (cmd.PrimaryKey cfl)
            (cmd.AutoGenerate cfl)
            (if cmd.InferenceDepth cfl >? 0 then cmd.InferenceDepth cfl
             else Z.of_nat (List.length docs)) s' err :: rest /\
    existsb isInfer rest = false.
Proof.
  rewrite evolveSchema_run. cbv zeta. unfold cmd.inferenceBound.
  destruct (Infer _ _ _ _ _ _) as [s1 [e|]].
  { do 3 eexists. split; reflexivity. }
  destruct (Marshal s1) as [b [e|]].
  { do 3 eexists. split; reflexivity. }
  destruct (CreateOrUpdateCollection _ _ _ _) as [e3 r].
  do 3 eexists. split; reflexivity.
Qed.

Variable Sch : Type.
Variable buildBatch : list RawMessage -> Sch * option error.
Variable mergeSchema : Sch -> Sch -> Sch * option error.
Variable annotate : Sch -> string -> list string -> list string -> Sch.
Variable marshal : Sch -> bytes * option error.
Variable unmarshal : bytes -> Sch -> Sch * option error.

Local Abbreviation MO :=
  (ModelOps Sch buildBatch mergeSchema annotate marshal unmarshal).

(** The modelled [Infer] looks at the first [depth] documents only. *)
Lemma InferModel_prefix (s : Sch) (coll : string)
    (docs later : list RawMessage) (pk ag : list string) (d : Z) :
  0 < d -> d < Z.of_nat (List.length docs) ->
  InferModel Sch buildBatch mergeSchema annotate s coll
             (firstn (Z.to_nat d) docs ++ later) pk ag d =
  InferModel Sch buildBatch mergeSchema annotate s coll docs pk ag d.
Proof.
  intros Hd Hn. unfold InferModel.
  rewrite firstn_app, firstn_firstn, Nat.min_id.
  rewrite length_firstn, Nat.min_l by lia.
  rewrite Nat.sub_diag. simpl. rewrite app_nil_r. reflexivity.
Qed.

Lemma search_depth_prefix {SC : SearchClient} (sfl : search.Flags)
    (coll : string) (docs later : list RawMessage)
    (st : @search.State MO SC) :
  let d := search.InferenceDepth sfl in
  0 < d -> d < Z.of_nat (List.length docs) ->
  let r := @search.evolveIdxSchema MO SC sfl coll docs st in
  let r' := @search.evolveIdxSchema MO SC sfl coll
              (firstn (Z.to_nat d) docs ++ later) st in
  result r' = result r /\ final r' = final r.
Proof.
  intros d Hd Hn r r'. subst r r'.
  rewrite !evolveIdxSchema_run. cbv zeta.
  unfold search.inferenceBound. fold d.
  assert (Hgt : (d >? 0) = true) by (apply Z.gtb_lt; lia).
  rewrite Hgt. cbn [Infer Marshal ModelOps].
  rewrite InferModel_prefix by assumption.
  destruct (InferModel _ _ _ _ _ _ _ _ _ _) as [s1 [e|]]; [split; reflexivity|].
  destruct (marshal s1) as [b [e|]]; [split; reflexivity|].
  destruct (bytes_Equal b _); [split; reflexivity|].
  destruct (CreateOrUpdateIndex _ _ _) as [e3 r]. split; reflexivity.
Qed.

Lemma cmd_depth_prefix {DC : DbClient} (cfl : cmd.Flags)
    (db coll : string) (docs later : list RawMessage)
    (st : @cmd.State MO DC) :
  let d := cmd.InferenceDepth cfl in
  0 < d -> d < Z.of_nat (List.length docs) ->
  let r := @cmd.evolveSchema MO DC cfl db coll docs st in
  let r' := @cmd.evolveSchema MO DC cfl db coll
              (firstn (Z.to_nat d) docs ++ later) st in
  result r' = result r /\ final r' = final r.
Proof.
  intros d Hd Hn r r'. subst r r'.
  rewrite !evolveSchema_run. cbv zeta.
  unfold cmd.inferenceBound. fold d.
  assert (Hgt : (d >? 0) = true) by (apply Z.gtb_lt; lia).
  rewrite Hgt. cbn [Infer Marshal ModelOps].
  rewrite InferModel_prefix by assumption.
  destruct (InferModel _ _ _ _ _ _ _ _ _ _) as [s1 [e|]]; [split; reflexivity|].
  destruct (marshal s1) as [b [e|]]; [split; reflexivity|].
  destruct (CreateOrUpdateCollection _ _ _ _) as [e3 r]. split; reflexivity.
Qed.

End DepthBound.

(** C7: every call of [evolveIdxSchema] and of [evolveSchema] calls
    [schema.Infer] exactly once, on the whole batch, with the bound
    [InferenceDepth] when [InferenceDepth > 0] and the length of the batch
    otherwise.  With [Infer] as the spec describes it, a depth [d > 0] and
    a batch of more than [d] documents, whatever replaces the documents
    after the [d]-th leaves the outcome of the call and the schema it
    leaves behind unchanged: only the first [d] documents contribute. *)
Theorem inference_depth_bound :
  (forall (SO : SchemaOps) (SC : SearchClient) (sfl : search.Flags)
          (coll : string) (docs : list RawMessage) (st : search.State),
     exists s' err rest,
       events (search.evolveIdxSchema sfl coll docs st) =
       EvInfer (search.sch st) coll docs (search.PrimaryKey sfl)
               (search.AutoGenerate sfl)
               (if search.InferenceDepth sfl >? 0
                then search.InferenceDepth sfl
                else Z.of_nat (List.length docs)) s' err :: rest /\
       existsb isInfer rest = false)
  /\
  (forall (SO : SchemaOps) (DC : DbClient) (cfl : cmd.Flags)
          (db coll : string) (docs : list RawMessage) (st : cmd.State),
     exists s' err rest,
       events (cmd.evolveSchema cfl db coll docs st) =
       EvInfer (cmd.sch st) coll docs (cmd.PrimaryKey cfl)
               (cmd.AutoGenerate cfl)
               (if cmd.InferenceDepth cfl >? 0
                then cmd.InferenceDepth cfl
                else Z.of_nat (List.length docs)) s' err :: rest /\
       existsb isInfer rest = false)
  /\
  (forall (Sch : Type) buildBatch mergeSchema annotate marshal unmarshal
          (SC : SearchClient) (sfl : search.Flags) (coll : string)
          (docs later : list RawMessage),
     let MO := ModelOps Sch buildBatch mergeSchema annotate marshal unmarshal in
     forall st : @search.State MO SC,
     let d := search.InferenceDepth sfl in
     0 < d -> d < Z.of_nat (List.length docs) ->
     let r := @search.evolveIdxSchema MO SC sfl coll docs st in
     let r' := @search.evolveIdxSchema MO SC sfl coll
                 (firstn (Z.to_nat d) docs ++ later) st in
     result r' = result r /\ final r' = final r)
  /\
  (forall (Sch : Type) buildBatch mergeSchema annotate marshal unmarshal
          (DC : DbClient) (cfl : cmd.Flags) (db coll : string)
          (docs later : list RawMessage),
     let MO := ModelOps Sch buildBatch mergeSchema annotate marshal unmarshal in
     forall st : @cmd.State MO DC,
     let d := cmd.InferenceDepth cfl in
     0 < d -> d < Z.of_nat (List.length docs) ->
     let r := @cmd.evolveSchema MO DC cfl db coll docs st in
     let r' := @cmd.evolveSchema MO DC cfl db coll
                 (firstn (Z.to_nat d) docs ++ later) st in
     result r' = result r /\ final r' = final r).
Proof.
  split; [|split; [|split]].
  - intros. apply search_infer_call.
  - intros. apply cmd_infer_call.
  - intros. apply search_depth_prefix; assumption.
  - intros. apply cmd_depth_prefix; assumption.
Qed.

(** ** The theorems at concrete inputs *)

Import TestDouble.

(** Two calls of [evolveIdxSchema] on the batch [[doc1]], starting from an
    empty schema and a nil snapshot: both call [CreateOrUpdateIndex]. *)
Lemma evolveIdxSchema_twice_updates_twice_witness :
  let st := searchState [] (scripted []) in
  let fl := searchFlags true false true in
  let first := @search.evolveIdxSchema schemaOps searchClient fl "idx" [doc1] st in
  let second := @search.evolveIdxSchema schemaOps searchClient fl "idx" [doc1]
                  (final first) in
  existsb isSchemaUpdate (events first) = true /\
  existsb isSchemaUpdate (events second) = true.
Proof.
  intros st fl first second.
  destruct (@evolveIdxSchema_twice_updates_twice schemaOps searchClient fl
              "idx" [doc1] st [doc1] (raw "[" ++ doc1 ++ raw "]")
              eq_refl eq_refl eq_refl eq_refl) as (H1 & H2 & _).
  split; [exact H1 | exact H2].
Defined.

Lemma evolveIdxSchema_changed_snapshot_not_stored_witness :
  let st := searchState [] (scripted []) in
  let fl := searchFlags true false true in
  let r := @search.evolveIdxSchema schemaOps searchClient fl "idx" [doc1] st in
  search.prevSchema (final r) = [] /\
  search.prevSchema (final r) <> raw "[" ++ doc1 ++ raw "]".
Proof.
  intros st fl r.
  destruct (@evolveIdxSchema_changed_snapshot_not_stored schemaOps searchClient
              fl "idx" [doc1] st [doc1] (raw "[" ++ doc1 ++ raw "]")
              eq_refl eq_refl eq_refl) as (H1 & H2 & _).
  split; [exact H1 | exact H2].
Defined.

Lemma evolveIdxSchema_failure_keeps_snapshot_witness :
  let st := searchState [doc1] (scripted []) in
  let fl := searchFlags true false true in
  let r := @search.evolveIdxSchema schemaOps searchClient fl "idx"
             [doc2; conflictDoc] st in
  result r = Exit (OtherError "schema conflict") /\
  search.prevSchema (final r) = search.prevSchema st.
Proof.
  intros st fl r. split; [reflexivity|].
  refine (proj1 (@evolveIdxSchema_failure_keeps_snapshot schemaOps searchClient
                   fl "idx" [doc2; conflictDoc] st _)).
  vm_compute. discriminate.
Defined.

Lemma importBatch_retry_submits_cleaned_witness :
  let st := searchState [] (existing (raw "[]") [Some invalid]) in
  let fl := searchFlags false true true in
  let docs := [doc1; raw "null"] in
  let r := @search.importBatch schemaOps searchClient cleanup fl "idx" true
             docs st in
  events r = [EvCreate "idx" docs (Some invalid);
              EvCreate "idx" [doc1; raw "{}"] None] /\
  result r = Val None.
Proof.
  intros st fl docs r.
  destruct (@importBatch_retry_submits_cleaned schemaOps searchClient cleanup
              fl "idx" true docs st [] [EvCreate "idx" [doc1; raw "{}"] None]
              "idx" docs invalid eq_refl eq_refl eq_refl)
    as (_ & _ & (e2 & Hpost & Hres) & _).
  split; [reflexivity|].
  injection Hpost as <-. exact Hres.
Defined.

Lemma Run_index_exists_without_append_witness :
  let st := searchState [] (existing (raw "[]") []) in
  let fl := searchFlags true false true in
  let x := @search.Run schemaOps searchClient cleanup csvOk fl "idx"
             [[doc1]; [doc2]] st in
  result x = Exit search.ErrNoAppend /\
  events x = [EvGetIndex "idx" (raw "[]") None].
Proof.
  intros st fl x.
  destruct (@Run_index_exists_without_append schemaOps searchClient cleanup
              csvOk fl "idx" [[doc1]; [doc2]] st (raw "[]")
              (existing (raw "[]") []) eq_refl eq_refl)
    as (H1 & H2 & _).
  split; [exact H1 | exact H2].
Defined.



(** C3 fails as stated.  In [tigris search import], with no schema
    management asked for, a first submission that fails with an error that
    is neither "not found" nor "invalid argument" is retried all the same,
    and the failure is not surfaced when the retry succeeds.  In
    [tigris import], without [--create-collection], an "invalid argument"
    failure is followed by [evolveSchema] and a retry. *)
Lemma retry_policy_counterexample :
  (let st := searchState [] (existing (raw "[]") [Some unavailable]) in
   let r := @search.importBatch schemaOps searchClient cleanup appendOnly
              "idx" true [doc1] st in
   search.evolveFirst appendOnly true = false /\
   asDriverError unavailable = None /\
   events r = [EvCreate "idx" [doc1] (Some unavailable);
               EvCreate "idx" [doc1] None] /\
   result r = Val None)
  /\
  (let st := cmdState [] (scripted [Some invalid]) in
   let fl := cmdFlags false 0 in
   let r := @cmd.importBatch schemaOps dbClient fl "db" "users" [doc1] st in
   cmd.AutoCreate fl = false /\
   events r = [EvInsert "db" "users" [doc1] (Some invalid);
               EvInfer [] "users" [doc1] [] [] 1 [doc1] None;
               EvCreateOrUpdateCollection "db" "users"
                 (raw "[" ++ doc1 ++ raw "]") None;
               EvInsert "db" "users" [doc1] None] /\
   result r = Val None).
Proof. repeat split. Qed.

Lemma importBatch_submits_at_most_twice_witness :
  let st := cmdState [] (scripted [Some notFound]) in
  let fl := cmdFlags false 0 in
  let r := @cmd.importBatch schemaOps dbClient fl "db" "users" [doc1] st in
  result r = Val (Some notFound) /\
  events r = [EvInsert "db" "users" [doc1] (Some notFound)].
Proof.
  intros st fl r.
  destruct (proj2 (@importBatch_submits_at_most_twice schemaOps searchClient
                     dbClient cleanup appendOnly fl) "db" "users" [doc1] st)
    as [_ [[H _] | [(e & _ & H1 & H2) | (e & r1 & (c & Hc & Hr) & HI & _)]]].
  - discriminate H.
  - split; [reflexivity | reflexivity].
  - exfalso. injection HI as <- _. injection Hc as <-.
    destruct Hr as [Hr | [_ Hr]]; discriminate Hr.
Defined.

(** C5 fails as stated: a batch that [schema.Infer] cannot merge does not
    make [evolveIdxSchema] or [evolveSchema] return an error; the process
    ends in [util.Fatal]. *)
Lemma infer_failure_counterexample :
  (let st := searchState [doc1] (scripted []) in
   let fl := searchFlags true false true in
   let r := @search.evolveIdxSchema schemaOps searchClient fl "idx"
              [conflictDoc] st in
   snd (@Infer schemaOps [doc1] "idx" [conflictDoc] [] [] 1) =
     Some (OtherError "schema conflict") /\
   result r = Exit (OtherError "schema conflict") /\
   forall err, result r <> Val err)
  /\
  (let st := cmdState [doc1] (scripted []) in
   let fl := cmdFlags true 0 in
   let r := @cmd.evolveSchema schemaOps dbClient fl "db" "users"
              [conflictDoc] st in
   result r = Exit (OtherError "schema conflict") /\
   forall err, result r <> Val err).
Proof. repeat split; discriminate. Qed.

Lemma evolve_infer_failure_is_fatal_witness :
  let st := searchState [doc1] (scripted []) in
  let fl := searchFlags true false true in
  result (@search.evolveIdxSchema schemaOps searchClient fl "idx"
            [conflictDoc] st) = Exit (OtherError "schema conflict").
Proof.
  intros st fl.
  rewrite (proj1 (@evolve_infer_failure_is_fatal schemaOps searchClient
                    dbClient fl (cmdFlags true 0))
             "idx" [conflictDoc] st [doc1] (OtherError "schema conflict")
             eq_refl).
  reflexivity.
Defined.

Lemma inference_depth_bound_witness :
  let st := cmdState [] (scripted []) in
  let fl := cmdFlags true 1 in
  final (@cmd.evolveSchema schemaOps dbClient fl "db" "users" [doc1; doc2] st) =
  final (@cmd.evolveSchema schemaOps dbClient fl "db" "users" [doc1; doc3] st).
Proof.
  intros st fl.
  destruct inference_depth_bound as (_ & _ & _ & H).
  destruct (H (list RawMessage) buildBatch mergeSchema (fun s _ _ _ => s)
              marshal unmarshal dbClient fl "db" "users" [doc1; doc3] [doc2]
              st) as [_ Hf]; [reflexivity | reflexivity |].
  exact Hf.
Defined.

Lemma existing_schema_seeds_first_evolve_witness :
  let st := searchState [] (existing (raw "[]") []) in
  let fl := searchFlags true true true in
  let x := @search.Run schemaOps searchClient cleanup csvOk fl "idx"
             [[doc1]] st in
  firstInfer (events x) = Some [raw "[]"] /\
  [raw "[]"] = fst (@Unmarshal schemaOps (raw "[]") []).
Proof.
  intros st fl x.
  destruct (proj1 (@existing_schema_seeds_first_evolve schemaOps searchClient
                     dbClient cleanup csvOk fl (cmdFlags true 0))
              "idx" [[doc1]] st (raw "[]") (existing (raw "[]") []) eq_refl)
    as [H _].
  split; [reflexivity | exact (H [raw "[]"] eq_refl)].
Defined.

(** * Further properties *)

(** ** How [tigris search import] starts *)

Section SearchStartup.
Context {SO : SchemaOps} {SC : SearchClient}.
Variable CleanupNULLValues : RawMessage -> RawMessage.
Variable CSVConfigure : string -> string -> bool -> bool -> option error.
Variable fl : search.Flags.

Lemma importInput_run (name : string) (found : bool)
    (batches : list (list RawMessage)) (st : search.State) :
  search.importInput CleanupNULLValues CSVConfigure fl name found batches st =
  match CSVConfigure (search.CSVDelimiter fl) (search.CSVComment fl)
          (search.CSVTrimLeadingSpace fl) (search.CSVNoHeader fl) with
  | Some e => (Exit e, st, [])
  | None =>
      iterateInput (search.importBatch CleanupNULLValues fl name found)
        batches st
  end.
Proof.
  unfold search.importInput. unfold bind at 1.
  destruct (CSVConfigure _ _ _ _); cbn [utilFatal ret]; [reflexivity|].
  destruct (iterateInput _ batches st) as [[x1 x2] x3]. reflexivity.
Qed.

(** What the closure does once [GetIndex] has answered with an error. *)
Lemma Run_lookup_failed (name : string) (batches : list (list RawMessage))
    (st : search.State) (resp : bytes) (e : error) (r : Srv) :
  GetIndex (search.srv st) name = (resp, Some e, r) ->
  search.Run CleanupNULLValues CSVConfigure fl name batches st =
  let ev := EvGetIndex name resp (Some e) in
  let st0 := search.Build_State (search.sch st) (search.prevSchema st) r in
  let go_on :=
    let x := search.importInput CleanupNULLValues CSVConfigure fl name false
               batches st0 in
    (result x, final x, ev :: events x) in
  if search.CSVNoHeader fl then (Exit search.ErrIndexShouldExist, st0, [ev])
  else
    match asDriverError e with
    | None => (Val (Some e), st0, [ev])
    | Some code =>
        if (code =? Code_NOT_FOUND) && search.NoCreate fl
        then (Val (Some e), st0, [ev])
        else go_on
    end.
Proof.
  intros HG. unfold search.Run. unfold bind at 1.
  unfold search.clientGetIndex. rewrite HG. cbv zeta.
  destruct (search.CSVNoHeader fl); [reflexivity|].
  destruct (asDriverError e) as [code|]; [|reflexivity].
  destruct ((code =? Code_NOT_FOUND) && search.NoCreate fl); [reflexivity|].
  destruct (search.importInput _ _ _ _ _ _ _) as [[x1 x2] x3]. reflexivity.
Qed.

(** X1: when the lookup of the index fails, whatever the error, and
    [CSVNoHeader] is set, the closure ends the process with
    [ErrIndexShouldExist] right after the lookup: nothing is inferred,
    created or submitted, and [sch] is what it was. *)
Theorem Run_no_header_needs_index (name : string)
    (batches : list (list RawMessage)) (st : search.State)
    (resp : bytes) (e : error) (r : Srv) :
  GetIndex (search.srv st) name = (resp, Some e, r) ->
  search.CSVNoHeader fl = true ->
  let x := search.Run CleanupNULLValues CSVConfigure fl name batches st in
  result x = Exit search.ErrIndexShouldExist /\
  events x = [EvGetIndex name resp (Some e)] /\
  search.sch (final x) = search.sch st.
Proof.
  intros HG HN x. subst x. rewrite (Run_lookup_failed _ _ _ _ _ _ HG).
  cbv zeta. rewrite HN. repeat split.
Qed.

(** X2: with [CSVNoHeader] unset, a lookup that fails with an error that is
    not a driver error, or with [NOT_FOUND] while [NoCreate] is set, makes
    the closure return that very error after the lookup alone: the loop
    over the batches does not start. *)
Theorem Run_lookup_error_returned (name : string)
    (batches : list (list RawMessage)) (st : search.State)
    (resp : bytes) (e : error) (r : Srv) :
  GetIndex (search.srv st) name = (resp, Some e, r) ->
  search.CSVNoHeader fl = false ->
  asDriverError e = None \/
  (asDriverError e = Some Code_NOT_FOUND /\ search.NoCreate fl = true) ->
  let x := search.Run CleanupNULLValues CSVConfigure fl name batches st in
  result x = Val (Some e) /\
  events x = [EvGetIndex name resp (Some e)] /\
  search.sch (final x) = search.sch st.
Proof.
  intros HG HN Hcase x. subst x. rewrite (Run_lookup_failed _ _ _ _ _ _ HG).
  cbv zeta. rewrite HN.
  destruct Hcase as [-> | [-> ->]]; repeat split.
Qed.

(** X3: with [CSVNoHeader] unset, a lookup that fails with a driver error
    goes on to import unless the code is [NOT_FOUND] and [NoCreate] is set.
    So a driver error with any other code (whatever [NoCreate]) is taken
    for a missing index: the batches are imported with [found = false],
    starting from the [sch] and [prevSchema] the session began with, and
    the lookup error is not reported. *)
Theorem Run_lookup_error_goes_on (name : string)
    (batches : list (list RawMessage)) (st : search.State)
    (resp : bytes) (e : error) (code : Z) (r : Srv) :
  GetIndex (search.srv st) name = (resp, Some e, r) ->
  search.CSVNoHeader fl = false ->
  asDriverError e = Some code ->
  code <> Code_NOT_FOUND \/ search.NoCreate fl = false ->
  let st0 := search.Build_State (search.sch st) (search.prevSchema st) r in
  let y := search.importInput CleanupNULLValues CSVConfigure fl name false
             batches st0 in
  search.Run CleanupNULLValues CSVConfigure fl name batches st =
  (result y, final y, EvGetIndex name resp (Some e) :: events y).
Proof.
  intros HG HN Hc Hcase st0 y. subst y st0.
  rewrite (Run_lookup_failed _ _ _ _ _ _ HG). cbv zeta. rewrite HN, Hc.
  replace ((code =? Code_NOT_FOUND) && search.NoCreate fl) with false;
    [reflexivity|].
  destruct Hcase as [Hne | ->].
  - apply Z.eqb_neq in Hne. rewrite Hne. reflexivity.
  - rewrite andb_false_r. reflexivity.
Qed.

(** X4: when [iterate.CSVConfigure] rejects the CSV options, no batch is
    looked at, whatever the index and the service are: the events of the
    closure are the lookup alone and the closure does not report success. *)
Theorem Run_csv_configure_failure (name : string)
    (batches : list (list RawMessage)) (st : search.State) (e : error) :
  CSVConfigure (search.CSVDelimiter fl) (search.CSVComment fl)
    (search.CSVTrimLeadingSpace fl) (search.CSVNoHeader fl) = Some e ->
  let x := search.Run CleanupNULLValues CSVConfigure fl name batches st in
  (exists resp err, events x = [EvGetIndex name resp err]) /\
  result x <> Val None.
Proof.
  intros HC x. subst x.
  destruct (GetIndex (search.srv st) name) as [[resp [e0|]] r] eqn:HG.
  - rewrite (Run_lookup_failed _ _ _ _ _ _ HG). cbv zeta.
    rewrite importInput_run, HC.
    destruct (search.CSVNoHeader fl).
    { split; [do 2 eexists; reflexivity | discriminate]. }
    destruct (asDriverError e0) as [code|].
    2:{ split; [do 2 eexists; reflexivity | discriminate]. }
    destruct ((code =? Code_NOT_FOUND) && search.NoCreate fl);
      (split; [do 2 eexists; reflexivity | discriminate]).
  - rewrite (Run_index_exists _ _ _ _ _ _ _ _ HG). cbv zeta. rewrite HC.
    destruct (negb (search.Append fl)).
    { split; [do 2 eexists; reflexivity | discriminate]. }
    destruct (Unmarshal resp (search.sch st)) as [s0 [eu|]];
      (split; [do 2 eexists; reflexivity | discriminate]).
Qed.

(** An index that exists, with [Append] set, whose schema
    [json.Unmarshal] rejects ends the process with that error after the
    lookup alone. *)
Lemma search_Run_unmarshal_failure (name : string)
    (batches : list (list RawMessage)) (st : search.State)
    (resp : bytes) (r : Srv) (s0 : Schema) (e : error) :
  GetIndex (search.srv st) name = (resp, None, r) ->
  search.Append fl = true ->
  Unmarshal resp (search.sch st) = (s0, Some e) ->
  let x := search.Run CleanupNULLValues CSVConfigure fl name batches st in
  result x = Exit e /\ events x = [EvGetIndex name resp None].
Proof.
  intros HG HA HU x. subst x.
  rewrite (Run_index_exists _ _ _ _ _ _ _ _ HG). cbv zeta.
  rewrite HA, HU. split; reflexivity.
Qed.

End SearchStartup.

(** ** How [tigris import] starts, and what the evolve functions send *)

Section StartupAndEvolve.
Context {SO : SchemaOps} {SC : SearchClient} {DC : DbClient}.
Variable CleanupNULLValues : RawMessage -> RawMessage.
Variable CSVConfigure : string -> string -> bool -> bool -> option error.
Variable sfl : search.Flags.
Variable cfl : cmd.Flags.

(** X5: a schema of the existing index or collection that
    [json.Unmarshal] rejects ends the process with that error right after
    the lookup, in both commands (in the search command once [Append] has
    let the closure pass): no batch is inferred or submitted. *)
Theorem Run_unmarshal_failure_is_fatal :
  (forall name batches (st : search.State) resp r s0 e,
     GetIndex (search.srv st) name = (resp, None, r) ->
     search.Append sfl = true ->
     Unmarshal resp (search.sch st) = (s0, Some e) ->
     let x := search.Run CleanupNULLValues CSVConfigure sfl name batches st in
     result x = Exit e /\ events x = [EvGetIndex name resp None])
  /\
  (forall db coll batches (st : cmd.State) resp r s0 e,
     DescribeCollection (cmd.srv st) db coll = (resp, None, r) ->
     Unmarshal resp (cmd.sch st) = (s0, Some e) ->
     let x := cmd.Run cfl db coll batches st in
     result x = Exit e /\ events x = [EvDescribeCollection db coll resp None]).
Proof.
  split.
  - intros. eapply search_Run_unmarshal_failure; eassumption.
  - intros db coll batches st resp r s0 e HD HU x. subst x.
    rewrite cmd_Run_run, HD. cbv zeta. rewrite HU. split; reflexivity.
Qed.

(** X6: [tigris import] does not look at the error of
    [DescribeCollection]: whatever it is, driver error or not, the batches
    are imported, starting from the [sch] the session began with, and the
    error is never reported. *)
Theorem cmd_Run_ignores_lookup_error (db coll : string)
    (batches : list (list RawMessage)) (st : cmd.State)
    (resp : bytes) (e : error) (r : Db) :
  DescribeCollection (cmd.srv st) db coll = (resp, Some e, r) ->
  let y := iterateInput (cmd.importBatch cfl db coll) batches
             (cmd.Build_State (cmd.sch st) r) in
  cmd.Run cfl db coll batches st =
  (result y, final y, EvDescribeCollection db coll resp (Some e) :: events y).
Proof.
  intros HD y. subst y. rewrite cmd_Run_run, HD. reflexivity.
Qed.

(** X7: whatever [evolveIdxSchema] sends to the service is the
    serialization of the schema it leaves in [sch], sent under the name it
    was given; it sends it at most once, and what it then returns is the
    answer of the service. *)
Theorem evolveIdxSchema_sends_marshalled_sch (coll : string)
    (docs : list RawMessage) (st : search.State) :
  let x := search.evolveIdxSchema sfl coll docs st in
  (List.length (filter isSchemaUpdate (events x)) <= 1)%nat /\
  forall ev, In ev (events x) -> isSchemaUpdate ev = true ->
    exists b err,
      ev = EvCreateOrUpdateIndex coll b err /\
      Marshal (search.sch (final x)) = (b, None) /\
      result x = Val err.
Proof.
  intros x. subst x. rewrite evolveIdxSchema_run. cbv zeta.
  destruct (Infer _ _ _ _ _ _) as [s1 [e|]].
  { split; [simpl; lia|]. intros ev [<-|[]]. discriminate. }
  destruct (Marshal s1) as [b [e|]] eqn:HM.
  { split; [simpl; lia|]. intros ev [<-|[]]. discriminate. }
  destruct (bytes_Equal b _).
  { split; [simpl; lia|]. intros ev [<-|[]]. discriminate. }
  destruct (CreateOrUpdateIndex _ _ _) as [e3 r].
  split; [simpl; lia|].
  intros ev [<-|[<-|[]]]; [discriminate|]. intros _.
  exists b, e3. repeat split. exact HM.
Qed.

(** X8: [evolveSchema] keeps no snapshot: whenever inference and
    serialization succeed it calls [CreateOrUpdateCollection] exactly once,
    with the serialization of the schema it leaves in [sch], even when the
    inference changed nothing; what it returns is the answer of that
    call. *)
Theorem evolveSchema_always_updates (db coll : string)
    (docs : list RawMessage) (st : cmd.State) (s1 : Schema) (b : bytes) :
  Infer (cmd.sch st) coll docs (cmd.PrimaryKey cfl) (cmd.AutoGenerate cfl)
        (cmd.inferenceBound cfl docs) = (s1, None) ->
  Marshal s1 = (b, None) ->
  let x := cmd.evolveSchema cfl db coll docs st in
  exists err,
    filter isSchemaUpdate (events x) =
      [EvCreateOrUpdateCollection db coll b err] /\
    result x = Val err /\
    cmd.sch (final x) = s1.
Proof.
  intros HI HM x. subst x. rewrite evolveSchema_run. cbv zeta.
  rewrite HI, HM.
  destruct (CreateOrUpdateCollection _ _ _ _) as [e3 r].
  exists e3. repeat split.
Qed.

(** X9: when [json.Marshal] fails on the inferred schema, both evolve
    functions end the process with that error: the service is not called,
    while [sch] already holds the inferred schema. *)
Theorem evolve_marshal_failure_is_fatal :
  (forall coll docs (st : search.State) s1 b e,
     Infer (search.sch st) coll docs (search.PrimaryKey sfl)
           (search.AutoGenerate sfl) (search.inferenceBound sfl docs)
     = (s1, None) ->
     Marshal s1 = (b, Some e) ->
     let x := search.evolveIdxSchema sfl coll docs st in
     result x = Exit e /\ filter isSchemaUpdate (events x) = [] /\
     search.sch (final x) = s1 /\ search.srv (final x) = search.srv st)
  /\
  (forall db coll docs (st : cmd.State) s1 b e,
     Infer (cmd.sch st) coll docs (cmd.PrimaryKey cfl)
           (cmd.AutoGenerate cfl) (cmd.inferenceBound cfl docs)
     = (s1, None) ->
     Marshal s1 = (b, Some e) ->
     let x := cmd.evolveSchema cfl db coll docs st in
     result x = Exit e /\ filter isSchemaUpdate (events x) = [] /\
     cmd.sch (final x) = s1 /\ cmd.srv (final x) = cmd.srv st).
Proof.
  split.
  - intros coll docs st s1 b e HI HM x. subst x.
    rewrite evolveIdxSchema_run. cbv zeta. rewrite HI, HM. repeat split.
  - intros db coll docs st s1 b e HI HM x. subst x.
    rewrite evolveSchema_run. cbv zeta. rewrite HI, HM. repeat split.
Qed.

End StartupAndEvolve.

(** ** Whole sessions *)

Section LoopFacts.
Context {Sch S : Type}.
Variable fn : list RawMessage -> M (Event Sch) S (option error).

(** What holds of the events of every batch holds, for some batch of the
    input, of every event of the loop. *)
Lemma iterateInput_events (Q : list RawMessage -> Event Sch -> Prop) :
  (forall docs st ev, In ev (events (fn docs st)) -> Q docs ev) ->
  forall batches st ev,
    In ev (events (iterateInput fn batches st)) ->
    exists docs, In docs batches /\ Q docs ev.
Proof.
  intros HQ batches.
  induction batches as [|docs rest IH]; intros st ev; simpl.
  - intros [].
  - unfold bind at 1. pose proof (HQ docs st) as H1.
    destruct (fn docs st) as [[[[e|]|e] st1] t1];
      cbn [events final result fst snd ret] in *.
    + rewrite app_nil_r. intros Hin. exists docs. auto.
    + destruct (iterateInput fn rest st1) as [[x1 x2] x3] eqn:Hx.
      cbn [events snd]. intros Hin. apply in_app_or in Hin as [Hin|Hin].
      * exists docs. auto.
      * destruct (IH st1 ev) as (d & Hd & HQd).
        { rewrite Hx. exact Hin. }
        exists d. auto.
    + intros Hin. exists docs. auto.
Qed.

(** A bound on the calls of one kind per batch bounds them for the loop. *)
Lemma iterateInput_count (p : Event Sch -> bool) (k : nat) :
  (forall docs st, (List.length (filter p (events (fn docs st))) <= k)%nat) ->
  forall batches st,
    (List.length (filter p (events (iterateInput fn batches st)))
     <= k * List.length batches)%nat.
Proof.
  intros Hk batches.
  induction batches as [|docs rest IH]; intros st; simpl.
  - lia.
  - unfold bind at 1. pose proof (Hk docs st) as H1.
    destruct (fn docs st) as [[[[e|]|e] st1] t1];
      cbn [events final result fst snd ret] in *.
    + rewrite app_nil_r. lia.
    + specialize (IH st1).
      destruct (iterateInput fn rest st1) as [[x1 x2] x3].
      cbn [events snd] in *. rewrite filter_app, length_app. lia.
    + lia.
Qed.

(** One turn of the loop. *)
Lemma iterateInput_cons (docs : list RawMessage)
    (rest : list (list RawMessage)) (st : S) :
  iterateInput fn (docs :: rest) st =
  match fn docs st with
  | (Val None, st1, t1) =>
      let y := iterateInput fn rest st1 in
      (result y, final y, t1 ++ events y)
  | (Val (Some e), st1, t1) => (Val (Some e), st1, t1)
  | (Exit e, st1, t1) => (Exit e, st1, t1)
  end.
Proof.
  simpl. unfold bind at 1.
  destruct (fn docs st) as [[[[e|]|e] st1] t1]; cbn [ret].
  - rewrite app_nil_r. reflexivity.
  - destruct (iterateInput fn rest st1) as [[x1 x2] x3]. reflexivity.
  - reflexivity.
Qed.

End LoopFacts.

Section SearchSession.
Context {SO : SchemaOps} {SC : SearchClient}.
Variable CleanupNULLValues : RawMessage -> RawMessage.
Variable CSVConfigure : string -> string -> bool -> bool -> option error.
Variable fl : search.Flags.

(** The calls one batch [docs] of an import into [name] may make. *)
Local Abbreviation batchCall name docs ev :=
  ((exists s s' err,
      ev = EvInfer s name docs (search.PrimaryKey fl) (search.AutoGenerate fl)
                   (search.inferenceBound fl docs) s' err) \/
   (exists b err, ev = EvCreateOrUpdateIndex name b err) \/
   (exists err, ev = EvCreate name docs err) \/
   (search.CleanUpNULLs fl = true /\
    exists err, ev = EvCreate name (map CleanupNULLValues docs) err)).

Ltac pick_call :=
  first [ solve [left; eauto 6]
        | solve [right; left; eauto 6]
        | solve [right; right; left; eauto 6]
        | solve [right; right; right; eauto 6] ].

Ltac each_event H :=
  simpl in H;
  repeat (destruct H as [<-|H]; [pick_call|]);
  try contradiction.

Lemma search_importBatch_calls (name : string) (found : bool)
    (docs : list RawMessage) (st : search.State) (ev : Event Schema) :
  In ev (events (search.importBatch CleanupNULLValues fl name found docs st)) ->
  batchCall name docs ev.
Proof.
  rewrite importBatch_run. cbv zeta. unfold search.beforeSubmit.
  destruct (search.evolveFirst fl found).
  - rewrite evolveIdxSchema_run. cbv zeta.
    destruct (Infer _ _ _ _ _ _) as [s1 [e|]]; cbn [result final events fst snd].
    { intros H. each_event H. }
    destruct (Marshal s1) as [b [e|]]; cbn [result final events fst snd].
    { intros H. each_event H. }
    destruct (bytes_Equal b _); cbn [result final events fst snd search.srv].
    + destruct (Create _ name docs) as [[e1|] r1].
      * destruct (search.CleanUpNULLs fl) eqn:HC;
          destruct (Create r1 name _) as [e2 r2]; intros H; each_event H.
      * intros H. each_event H.
    + destruct (CreateOrUpdateIndex _ _ _) as [[e3|] r];
        cbn [result final events fst snd search.srv].
      { intros H. each_event H. }
      destruct (Create _ name docs) as [[e1|] r1].
      * destruct (search.CleanUpNULLs fl) eqn:HC;
          destruct (Create r1 name _) as [e2 r2]; intros H; each_event H.
      * intros H. each_event H.
  - cbn [ret result final events fst snd].
    destruct (Create _ name docs) as [[e1|] r1].
    + destruct (search.CleanUpNULLs fl) eqn:HC;
        destruct (Create r1 name _) as [e2 r2]; intros H; each_event H.
    + intros H. each_event H.
Qed.

Lemma search_importBatch_counts (name : string) (found : bool)
    (docs : list RawMessage) (st : search.State) :
  let t := events (search.importBatch CleanupNULLValues fl name found docs st) in
  (List.length (filter isInfer t) <= 1)%nat /\
  (List.length (filter isSchemaUpdate t) <= 1)%nat /\
  (List.length (filter isSubmit t) <= 2)%nat.
Proof.
  rewrite importBatch_run. cbv zeta. unfold search.beforeSubmit.
  destruct (search.evolveFirst fl found).
  - rewrite evolveIdxSchema_run. cbv zeta.
    destruct (Infer _ _ _ _ _ _) as [s1 [e|]]; cbn [result final events fst snd].
    { simpl. lia. }
    destruct (Marshal s1) as [b [e|]]; cbn [result final events fst snd].
    { simpl. lia. }
    destruct (bytes_Equal b _); cbn [result final events fst snd search.srv].
    + destruct (Create _ name docs) as [[e1|] r1].
      * destruct (Create r1 name _) as [e2 r2]. simpl. lia.
      * simpl. lia.
    + destruct (CreateOrUpdateIndex _ _ _) as [[e3|] r];
        cbn [result final events fst snd search.srv].
      { simpl. lia. }
      destruct (Create _ name docs) as [[e1|] r1].
      * destruct (Create r1 name _) as [e2 r2]. simpl. lia.
      * simpl. lia.
  - cbn [ret result final events fst snd].
    destruct (Create _ name docs) as [[e1|] r1].
    + destruct (Create r1 name _) as [e2 r2]. simpl. lia.
    + simpl. lia.
Qed.

(** The events of the closure: the lookup, then possibly the loop. *)
Lemma search_Run_events (name : string) (batches : list (list RawMessage))
    (st : search.State) :
  let x := search.Run CleanupNULLValues CSVConfigure fl name batches st in
  exists resp err,
    events x = [EvGetIndex name resp err] \/
    exists found st0,
      events x =
      EvGetIndex name resp err ::
      events (iterateInput (search.importBatch CleanupNULLValues fl name found)
                batches st0).
Proof.
  intros x. subst x.
  destruct (GetIndex (search.srv st) name) as [[resp [e0|]] r] eqn:HG.
  - exists resp, (Some e0).
    rewrite (Run_lookup_failed CleanupNULLValues CSVConfigure fl name batches
               st resp e0 r HG). cbv zeta.
    rewrite importInput_run.
    destruct (search.CSVNoHeader fl); [left; reflexivity|].
    destruct (asDriverError e0) as [code|]; [|left; reflexivity].
    destruct ((code =? Code_NOT_FOUND) && search.NoCreate fl);
      [left; reflexivity|].
    destruct (CSVConfigure _ _ _ _); [left; reflexivity|].
    right. do 2 eexists. reflexivity.
  - exists resp, None.
    rewrite (Run_index_exists _ _ _ _ _ _ _ _ HG). cbv zeta.
    destruct (negb (search.Append fl)); [left; reflexivity|].
    destruct (Unmarshal resp (search.sch st)) as [s0 [eu|]];
      [left; reflexivity|].
    destruct (CSVConfigure _ _ _ _); [left; reflexivity|].
    right. do 2 eexists. reflexivity.
Qed.

(** X10: in a whole [tigris search import] session every call goes to the
    index named on the command line, and every document list submitted is a
    batch of the input, as it came or, when [CleanUpNULLs] is set, with each
    document passed through [util.CleanupNULLValues]; inference always sees
    a whole batch of the input. *)
Theorem search_session_calls (name : string)
    (batches : list (list RawMessage)) (st : search.State)
    (ev : Event Schema) :
  In ev (events (search.Run CleanupNULLValues CSVConfigure fl name batches st)) ->
  (exists resp err, ev = EvGetIndex name resp err) \/
  exists docs, In docs batches /\
    ((exists s s' err,
        ev = EvInfer s name docs (search.PrimaryKey fl)
                     (search.AutoGenerate fl)
                     (search.inferenceBound fl docs) s' err) \/
     (exists b err, ev = EvCreateOrUpdateIndex name b err) \/
     (exists err, ev = EvCreate name docs err) \/
     (search.CleanUpNULLs fl = true /\
      exists err, ev = EvCreate name (map CleanupNULLValues docs) err)).
Proof.
  destruct (search_Run_events name batches st)
    as (resp & err & [-> | (found & st0 & ->)]).
  - intros [<-|[]]. left. eauto.
  - intros [<-|Hin]; [left; eauto|]. right.
    apply (iterateInput_events _ (fun docs ev => batchCall name docs ev)) in Hin.
    + exact Hin.
    + intros docs st1 ev1. apply search_importBatch_calls.
Qed.

End SearchSession.

Section CmdSession.
Context {SO : SchemaOps} {DC : DbClient}.
Variable fl : cmd.Flags.

Local Abbreviation batchCall db coll docs ev :=
  ((exists s s' err,
      ev = EvInfer s coll docs (cmd.PrimaryKey fl) (cmd.AutoGenerate fl)
                   (cmd.inferenceBound fl docs) s' err) \/
   (exists b err, ev = EvCreateOrUpdateCollection db coll b err) \/
   (exists err, ev = EvInsert db coll docs err)).

Ltac pick_call :=
  first [ solve [left; eauto 6]
        | solve [right; left; eauto 6]
        | solve [right; right; eauto 6] ].

Ltac each_event H :=
  simpl in H;
  repeat (destruct H as [<-|H]; [pick_call|]);
  try contradiction.

Lemma cmd_importBatch_calls (db coll : string) (docs : list RawMessage)
    (st : cmd.State) (ev : Event Schema) :
  In ev (events (cmd.importBatch fl db coll docs st)) ->
  batchCall db coll docs ev.
Proof.
  rewrite cmd_importBatch_run.
  destruct (Insert (cmd.srv st) db coll docs) as [[e|] r1]; cbv zeta.
  2:{ intros H. each_event H. }
  destruct (cmd.initialFailureIsFinal fl e).
  { intros H. each_event H. }
  rewrite evolveSchema_run. cbv zeta. cbn [cmd.sch cmd.srv].
  destruct (Infer _ _ _ _ _ _) as [s1 [e1|]]; cbn [result final events fst snd].
  { intros H. each_event H. }
  destruct (Marshal s1) as [b [e1|]]; cbn [result final events fst snd].
  { intros H. each_event H. }
  destruct (CreateOrUpdateCollection _ _ _ _) as [[e3|] r];
    cbn [result final events fst snd cmd.srv].
  { intros H. each_event H. }
  destruct (Insert r db coll docs) as [e2 r2]. intros H. each_event H.
Qed.

Lemma cmd_importBatch_counts (db coll : string) (docs : list RawMessage)
    (st : cmd.State) :
  let t := events (cmd.importBatch fl db coll docs st) in
  (List.length (filter isInfer t) <= 1)%nat /\
  (List.length (filter isSchemaUpdate t) <= 1)%nat /\
  (List.length (filter isSubmit t) <= 2)%nat.
Proof.
  rewrite cmd_importBatch_run.
  destruct (Insert (cmd.srv st) db coll docs) as [[e|] r1]; cbv zeta.
  2:{ simpl. lia. }
  destruct (cmd.initialFailureIsFinal fl e).
  { simpl. lia. }
  rewrite evolveSchema_run. cbv zeta. cbn [cmd.sch cmd.srv].
  destruct (Infer _ _ _ _ _ _) as [s1 [e1|]]; cbn [result final events fst snd].
  { simpl. lia. }
  destruct (Marshal s1) as [b [e1|]]; cbn [result final events fst snd].
  { simpl. lia. }
  destruct (CreateOrUpdateCollection _ _ _ _) as [[e3|] r];
    cbn [result final events fst snd cmd.srv].
  { simpl. lia. }
  destruct (Insert r db coll docs) as [e2 r2]. simpl. lia.
Qed.

Lemma cmd_Run_events (db coll : string) (batches : list (list RawMessage))
    (st : cmd.State) :
  let x := cmd.Run fl db coll batches st in
  exists resp err,
    events x = [EvDescribeCollection db coll resp err] \/
    exists st0,
      events x =
      EvDescribeCollection db coll resp err ::
      events (iterateInput (cmd.importBatch fl db coll) batches st0).
Proof.
  intros x. subst x. rewrite cmd_Run_run.
  destruct (DescribeCollection (cmd.srv st) db coll) as [[resp [e|]] r];
    cbv zeta.
  - exists resp, (Some e). right. eexists. reflexivity.
  - exists resp, None.
    destruct (Unmarshal resp (cmd.sch st)) as [s0 [eu|]].
    + left. reflexivity.
    + right. eexists. reflexivity.
Qed.

(** X11: in a whole [tigris import] session every call goes to the database
    and collection named on the command line, every document list inserted
    is a batch of the input exactly as it came, and inference always sees a
    whole batch of the input. *)
Theorem cmd_session_calls (db coll : string)
    (batches : list (list RawMessage)) (st : cmd.State) (ev : Event Schema) :
  In ev (events (cmd.Run fl db coll batches st)) ->
  (exists resp err, ev = EvDescribeCollection db coll resp err) \/
  exists docs, In docs batches /\
    ((exists s s' err,
        ev = EvInfer s coll docs (cmd.PrimaryKey fl) (cmd.AutoGenerate fl)
                     (cmd.inferenceBound fl docs) s' err) \/
     (exists b err, ev = EvCreateOrUpdateCollection db coll b err) \/
     (exists err, ev = EvInsert db coll docs err)).
Proof.
  destruct (cmd_Run_events db coll batches st)
    as (resp & err & [-> | (st0 & ->)]).
  - intros [<-|[]]. left. eauto.
  - intros [<-|Hin]; [left; eauto|]. right.
    apply (iterateInput_events _ (fun docs ev => batchCall db coll docs ev))
      in Hin.
    + exact Hin.
    + intros docs st1 ev1. apply cmd_importBatch_calls.
Qed.

End CmdSession.

Section SessionCounts.
Context {SO : SchemaOps} {SC : SearchClient} {DC : DbClient}.
Variable CleanupNULLValues : RawMessage -> RawMessage.
Variable CSVConfigure : string -> string -> bool -> bool -> option error.
Variable sfl : search.Flags.
Variable cfl : cmd.Flags.

(** X12: a session of either command over [n] batches calls
    [schema.Infer] at most [n] times, updates the remote schema at most [n]
    times and submits documents at most [2 * n] times. *)
Theorem session_call_counts :
  (forall name batches (st : search.State),
     let t := events (search.Run CleanupNULLValues CSVConfigure sfl name
                        batches st) in
     (List.length (filter isInfer t) <= List.length batches)%nat /\
     (List.length (filter isSchemaUpdate t) <= List.length batches)%nat /\
     (List.length (filter isSubmit t) <= 2 * List.length batches)%nat)
  /\
  (forall db coll batches (st : cmd.State),
     let t := events (cmd.Run cfl db coll batches st) in
     (List.length (filter isInfer t) <= List.length batches)%nat /\
     (List.length (filter isSchemaUpdate t) <= List.length batches)%nat /\
     (List.length (filter isSubmit t) <= 2 * List.length batches)%nat).
Proof.
  split.
  - intros name batches st t. subst t.
    destruct (search_Run_events CleanupNULLValues CSVConfigure sfl name
                batches st) as (resp & err & [-> | (found & st0 & ->)]).
    { simpl. lia. }
    cbn [filter isInfer isSchemaUpdate isSubmit].
    pose proof (iterateInput_count
      (search.importBatch CleanupNULLValues sfl name found) isInfer 1
      (fun docs s => proj1 (search_importBatch_counts CleanupNULLValues sfl
                              name found docs s)) batches st0).
    pose proof (iterateInput_count
      (search.importBatch CleanupNULLValues sfl name found) isSchemaUpdate 1
      (fun docs s => proj1 (proj2 (search_importBatch_counts CleanupNULLValues
                                     sfl name found docs s))) batches st0).
    pose proof (iterateInput_count
      (search.importBatch CleanupNULLValues sfl name found) isSubmit 2
      (fun docs s => proj2 (proj2 (search_importBatch_counts CleanupNULLValues
                                     sfl name found docs s))) batches st0).
    lia.
  - intros db coll batches st t. subst t.
    destruct (cmd_Run_events cfl db coll batches st)
      as (resp & err & [-> | (st0 & ->)]).
    { simpl. lia. }
    cbn [filter isInfer isSchemaUpdate isSubmit].
    pose proof (iterateInput_count (cmd.importBatch cfl db coll) isInfer 1
      (fun docs s => proj1 (cmd_importBatch_counts cfl db coll docs s))
      batches st0).
    pose proof (iterateInput_count (cmd.importBatch cfl db coll)
      isSchemaUpdate 1
      (fun docs s => proj1 (proj2 (cmd_importBatch_counts cfl db coll docs s)))
      batches st0).
    pose proof (iterateInput_count (cmd.importBatch cfl db coll) isSubmit 2
      (fun docs s => proj2 (proj2 (cmd_importBatch_counts cfl db coll docs s)))
      batches st0).
    lia.
Qed.

End SessionCounts.

(** ** Sessions the service accepts *)

Section AcceptedSessions.
Context {SO : SchemaOps} {SC : SearchClient} {DC : DbClient}.
Variable CleanupNULLValues : RawMessage -> RawMessage.
Variable CSVConfigure : string -> string -> bool -> bool -> option error.
Variable sfl : search.Flags.
Variable cfl : cmd.Flags.

Lemma search_loop_accepted (name : string) (found : bool)
    (batches : list (list RawMessage)) :
  search.evolveFirst sfl found = false ->
  (forall r docs, fst (Create r name docs) = None) ->
  forall st : search.State,
    let y := iterateInput (search.importBatch CleanupNULLValues sfl name found)
               batches st in
    result y = Val None /\
    events y = map (fun docs => EvCreate name docs None) batches /\
    search.sch (final y) = search.sch st.
Proof.
  intros Hguard Hacc.
  induction batches as [|docs rest IH]; intros st.
  - repeat split.
  - rewrite iterateInput_cons, importBatch_run. cbv zeta.
    unfold search.beforeSubmit. rewrite Hguard.
    cbn [ret result final events fst snd app].
    pose proof (Hacc (search.srv st) docs) as Ha.
    destruct (Create (search.srv st) name docs) as [e1 r1].
    cbn [fst] in Ha. subst e1.
    specialize (IH (search.Build_State (search.sch st)
                      (search.prevSchema st) r1)).
    cbv zeta in IH. destruct IH as (H1 & H2 & H3).
    cbn [result final events fst snd app]. rewrite H1, H2, H3.
    repeat split.
Qed.

(** X13: appending to an existing index without [UpdateSchema], on a
    service that accepts every [Create]: the session is the lookup followed
    by exactly one [Create] per batch, in the order of the input and with
    the documents untouched; it returns nil, infers nothing, never updates
    the index, and leaves in [sch] the schema it unmarshaled at the
    start. *)
Theorem search_append_session_accepted (name : string)
    (batches : list (list RawMessage)) (st : search.State)
    (resp : bytes) (r : Srv) (s0 : Schema) :
  GetIndex (search.srv st) name = (resp, None, r) ->
  search.Append sfl = true ->
  search.UpdateSchema sfl = false ->
  Unmarshal resp (search.sch st) = (s0, None) ->
  CSVConfigure (search.CSVDelimiter sfl) (search.CSVComment sfl)
    (search.CSVTrimLeadingSpace sfl) (search.CSVNoHeader sfl) = None ->
  (forall r' docs, fst (Create r' name docs) = None) ->
  let x := search.Run CleanupNULLValues CSVConfigure sfl name batches st in
  result x = Val None /\
  events x = EvGetIndex name resp None ::
             map (fun docs => EvCreate name docs None) batches /\
  search.sch (final x) = s0.
Proof.
  intros HG HA HU HM HC Hacc x. subst x.
  rewrite (Run_index_exists _ _ _ _ _ _ _ _ HG). cbv zeta.
  rewrite HA, HM, HC. cbn [negb].
  assert (Hguard : search.evolveFirst sfl true = false).
  { unfold search.evolveFirst. rewrite HU. reflexivity. }
  destruct (search_loop_accepted name true batches Hguard Hacc
              (search.Build_State s0 (search.prevSchema st) r))
    as (H1 & H2 & H3).
  cbn [result final events fst snd]. rewrite H1, H2, H3. repeat split.
Qed.

Lemma cmd_loop_accepted (db coll : string)
    (batches : list (list RawMessage)) :
  (forall r docs, fst (Insert r db coll docs) = None) ->
  forall st : cmd.State,
    let y := iterateInput (cmd.importBatch cfl db coll) batches st in
    result y = Val None /\
    events y = map (fun docs => EvInsert db coll docs None) batches /\
    cmd.sch (final y) = cmd.sch st.
Proof.
  intros Hacc.
  induction batches as [|docs rest IH]; intros st.
  - repeat split.
  - rewrite iterateInput_cons, cmd_importBatch_run.
    pose proof (Hacc (cmd.srv st) docs) as Ha.
    destruct (Insert (cmd.srv st) db coll docs) as [e1 r1].
    cbn [fst] in Ha. subst e1. cbv zeta.
    specialize (IH (cmd.Build_State (cmd.sch st) r1)). cbv zeta in IH.
    destruct IH as (H1 & H2 & H3).
    cbn [result final events fst snd app]. rewrite H1, H2, H3.
    repeat split.
Qed.

(** X14: [tigris import] on a service that accepts every [Insert]: the
    session is the lookup followed by exactly one [Insert] per batch, in
    the order of the input; it returns nil and never infers or updates a
    schema, whatever [AutoCreate] is, so [sch] stays what the start of the
    session made it. *)
Theorem cmd_session_accepted (db coll : string)
    (batches : list (list RawMessage)) (st : cmd.State)
    (resp : bytes) (err : option error) (r : Db) :
  DescribeCollection (cmd.srv st) db coll = (resp, err, r) ->
  (err = None -> snd (Unmarshal resp (cmd.sch st)) = None) ->
  (forall r' docs, fst (Insert r' db coll docs) = None) ->
  let x := cmd.Run cfl db coll batches st in
  result x = Val None /\
  events x = EvDescribeCollection db coll resp err ::
             map (fun docs => EvInsert db coll docs None) batches /\
  cmd.sch (final x) =
    match err with
    | None => fst (Unmarshal resp (cmd.sch st))
    | Some _ => cmd.sch st
    end.
Proof.
  intros HD HU Hacc x. subst x. rewrite cmd_Run_run, HD. cbv zeta.
  destruct err as [e|].
  - destruct (cmd_loop_accepted db coll batches Hacc
                (cmd.Build_State (cmd.sch st) r)) as (H1 & H2 & H3).
    cbn [result final events fst snd]. rewrite H1, H2, H3. repeat split.
  - specialize (HU eq_refl).
    destruct (Unmarshal resp (cmd.sch st)) as [s0 eu]. cbn [fst snd] in *.
    subst eu.
    destruct (cmd_loop_accepted db coll batches Hacc (cmd.Build_State s0 r))
      as (H1 & H2 & H3).
    cbn [result final events fst snd]. rewrite H1, H2, H3. repeat split.
Qed.

End AcceptedSessions.

(** ** A run without options *)

Section NoOptions.
Context {SO : SchemaOps} {SC : SearchClient}.
Variable CleanupNULLValues : RawMessage -> RawMessage.
Variable CSVConfigure : string -> string -> bool -> bool -> option error.

(** X15: [tigris search import] run without any option, on an index the
    service reports as [NOT_FOUND]: the batches are imported with
    [found = false], and every batch is first handed whole to
    [schema.Infer], with no primary key, no autogenerated field and the
    length of the batch as depth, before anything of it is submitted. *)
Theorem search_no_options_missing_index (name : string)
    (batches : list (list RawMessage)) (st : search.State)
    (resp : bytes) (msg : string) (r : Srv) :
  GetIndex (search.srv st) name =
    (resp, Some (DriverError Code_NOT_FOUND msg), r) ->
  CSVConfigure "" "" true false = None ->
  let st0 := search.Build_State (search.sch st) (search.prevSchema st) r in
  let fn := search.importBatch CleanupNULLValues search.initFlags name false in
  let y := iterateInput fn batches st0 in
  search.Run CleanupNULLValues CSVConfigure search.initFlags name batches st =
  (result y, final y,
   EvGetIndex name resp (Some (DriverError Code_NOT_FOUND msg)) :: events y)
  /\
  forall docs st1,
    exists s' err rest,
      events (fn docs st1) =
      EvInfer (search.sch st1) name docs [] [] (Z.of_nat (List.length docs))
              s' err :: rest.
Proof.
  intros HG HC st0 fn y. split.
  - subst y fn st0.
    rewrite (Run_lookup_failed CleanupNULLValues CSVConfigure search.initFlags
               name batches st resp _ r HG).
    cbv zeta. cbn [search.CSVNoHeader search.initFlags asDriverError
                   search.NoCreate]. rewrite andb_false_r.
    rewrite importInput_run.
    cbn [search.CSVDelimiter search.CSVComment search.CSVTrimLeadingSpace
         search.CSVNoHeader search.initFlags]. rewrite HC. reflexivity.
  - intros docs st1.
    subst fn. rewrite importBatch_run. cbv zeta.
    unfold search.beforeSubmit.
    change (search.evolveFirst search.initFlags false) with true. cbv iota.
    destruct (search_infer_call search.initFlags name docs st1)
      as (s' & err & rest & Hev & _).
    cbn [search.InferenceDepth search.PrimaryKey search.AutoGenerate
         search.initFlags] in Hev.
    change (0 >? 0) with false in Hev. cbv iota in Hev.
    destruct (search.evolveIdxSchema search.initFlags name docs st1)
      as [[[[e|]|e] st2] t2]; cbn [result final events fst snd] in *.
    + subst t2. eauto.
    + subst t2. destruct (Create (search.srv st2) name docs) as [[e1|] r1].
      * destruct (Create r1 name _) as [e2 r2]. cbn [events snd].
        do 3 eexists. rewrite <- app_comm_cons. reflexivity.
      * cbn [events snd]. do 3 eexists. rewrite <- app_comm_cons.
        reflexivity.
    + subst t2. eauto.
Qed.

End NoOptions.

(** ** Package scaffold *)

Section Scaffold.
Local Open Scope string_scope.

Lemma string_length_append (a b : string) :
  String.length (a ++ b) = (String.length a + String.length b)%nat.
Proof. induction a as [|c a IH]; simpl; [reflexivity | rewrite IH; reflexivity]. Qed.

Lemma HasPrefix_iff (s p : string) :
  scaffold.HasPrefix s p = true <-> exists t, s = p ++ t.
Proof.
  revert s. induction p as [|a p IH]; intros s; simpl.
  - split; [intros _; exists s; reflexivity | reflexivity].
  - destruct s as [|b s].
    + split; [discriminate | intros (t & H); discriminate].
    + split.
      * intros H. apply andb_true_iff in H as [Hab Hp].
        apply Ascii.eqb_eq in Hab. subst b.
        apply IH in Hp as (t & ->). exists t. reflexivity.
      * intros (t & H). injection H as -> ->.
        rewrite Ascii.eqb_refl. apply IH. exists t. reflexivity.
Qed.

(** [strings.Contains] finds exactly the substrings. *)
Lemma Contains_iff (s sub : string) :
  scaffold.Contains s sub = true <-> exists a b, s = a ++ sub ++ b.
Proof.
  split.
  - induction s as [|c s IH]; simpl.
    + destruct (scaffold.HasPrefix "" sub) eqn:Hp; [|discriminate].
      intros _. apply HasPrefix_iff in Hp as (t & Ht).
      exists "", t. exact Ht.
    + destruct (scaffold.HasPrefix (String c s) sub) eqn:Hp.
      * intros _. apply HasPrefix_iff in Hp as (t & Ht).
        exists "", t. exact Ht.
      * intros H. destruct (IH H) as (a & b & ->).
        exists (String c a), b. reflexivity.
  - intros (a & b & ->). induction a as [|c a IH].
    + simpl. destruct (sub ++ b) eqn:E.
      * simpl. replace (scaffold.HasPrefix "" sub) with true; [reflexivity|].
        symmetry. apply HasPrefix_iff. exists b. symmetry. exact E.
      * simpl.
        replace (scaffold.HasPrefix (String a s) sub) with true;
          [reflexivity|].
        symmetry. apply HasPrefix_iff. exists b. symmetry. exact E.
    + simpl. rewrite IH.
      destruct (scaffold.HasPrefix _ sub); reflexivity.
Qed.

(** X16: [HasTime] holds of a schema text exactly when the text has
    [private Date] somewhere in it, and [HasUUID] exactly when it has
    [private UUID]; the match is literal, byte for byte. *)
Theorem HasTime_HasUUID_spec (schema : string) :
  (scaffold.HasTime schema = true <->
   exists a b, schema = a ++ "private Date" ++ b) /\
  (scaffold.HasUUID schema = true <->
   exists a b, schema = a ++ "private UUID" ++ b).
Proof. split; apply Contains_iff. Qed.

(** X17: a Java class text in which a [Date] or [UUID] field was found
    keeps it when more text is put before or after it, and a text shorter
    than the twelve characters of the marker, the empty text first of all,
    has neither. *)
Theorem HasTime_HasUUID_embedding :
  (forall before s after,
     scaffold.HasTime s = true ->
     scaffold.HasTime (before ++ s ++ after) = true) /\
  (forall before s after,
     scaffold.HasUUID s = true ->
     scaffold.HasUUID (before ++ s ++ after) = true) /\
  (forall s, (String.length s < 12)%nat ->
     scaffold.HasTime s = false /\ scaffold.HasUUID s = false).
Proof.
  assert (Hassoc : forall a b c : string, (a ++ b) ++ c = a ++ (b ++ c)).
  { intros a b c. induction a as [|x a IH]; simpl; [reflexivity|].
    rewrite IH. reflexivity. }
  assert (Hembed : forall sub before s after,
            scaffold.Contains s sub = true ->
            scaffold.Contains (before ++ s ++ after) sub = true).
  { intros sub before s after H. apply Contains_iff in H as (a & b & ->).
    apply Contains_iff. exists (before ++ a), (b ++ after).
    rewrite !Hassoc. reflexivity. }
  assert (Hshort : forall sub s,
            (String.length s < String.length sub)%nat ->
            scaffold.Contains s sub = false).
  { intros sub s Hlen. destruct (scaffold.Contains s sub) eqn:E; [|reflexivity].
    apply Contains_iff in E as (a & b & ->).
    rewrite !string_length_append in Hlen. lia. }
  split; [|split].
  - intros. apply Hembed. assumption.
  - intros. apply Hembed. assumption.
  - intros s Hlen. split; apply Hshort; simpl; lia.
Qed.

End Scaffold.

(** ** The further properties at concrete inputs *)

Lemma Run_no_header_needs_index_witness :
  let st := searchState [] (lookupFails notFound) in
  let x := @search.Run schemaOps searchClient cleanup csvOk noHeader "idx"
             [[doc1]] st in
  result x = Exit search.ErrIndexShouldExist /\
  events x = [EvGetIndex "idx" [] (Some notFound)].
Proof.
  intros st x.
  destruct (@Run_no_header_needs_index schemaOps searchClient cleanup csvOk
              noHeader "idx" [[doc1]] st [] notFound (lookupFails notFound)
              eq_refl eq_refl) as (H1 & H2 & _).
  split; [exact H1 | exact H2].
Defined.

Lemma Run_lookup_error_returned_witness :
  let st := searchState [] (lookupFails notFound) in
  let x := @search.Run schemaOps searchClient cleanup csvOk appendOnly "idx"
             [[doc1]] st in
  result x = Val (Some notFound) /\
  events x = [EvGetIndex "idx" [] (Some notFound)].
Proof.
  intros st x.
  destruct (@Run_lookup_error_returned schemaOps searchClient cleanup csvOk
              appendOnly "idx" [[doc1]] st [] notFound (lookupFails notFound)
              eq_refl eq_refl (or_intror (conj eq_refl eq_refl)))
    as (H1 & H2 & _).
  split; [exact H1 | exact H2].
Defined.

Lemma Run_lookup_error_goes_on_witness :
  let st := searchState [] (lookupFails internal) in
  search.NoCreate appendOnly = true /\
  events (@search.Run schemaOps searchClient cleanup csvOk appendOnly "idx"
            [[doc1]] st) =
  [EvGetIndex "idx" [] (Some internal); EvCreate "idx" [doc1] None].
Proof.
  intros st. split; [reflexivity|].
  rewrite (@Run_lookup_error_goes_on schemaOps searchClient cleanup csvOk
             appendOnly "idx" [[doc1]] st [] internal 13
             (lookupFails internal) eq_refl eq_refl eq_refl).
  - reflexivity.
  - left. discriminate.
Defined.

Lemma Run_csv_configure_failure_witness :
  let st := searchState [] (lookupFails notFound) in
  result (@search.Run schemaOps searchClient cleanup csvBad
            (searchFlags true true true) "idx" [[doc1]] st) <> Val None.
Proof.
  intros st.
  exact (proj2 (@Run_csv_configure_failure schemaOps searchClient cleanup
                  csvBad (searchFlags true true true) "idx" [[doc1]] st
                  (OtherError "invalid delimiter") eq_refl)).
Defined.

Lemma Run_unmarshal_failure_is_fatal_witness :
  let st := @cmd.Build_State brokenJSON dbClient [] (existing (raw "[]") []) in
  result (@cmd.Run brokenJSON dbClient (cmdFlags true 0) "db" "users"
            [[doc1]] st) = Exit (OtherError "unexpected end of JSON input").
Proof.
  intros st.
  exact (proj1 (proj2 (@Run_unmarshal_failure_is_fatal brokenJSON searchClient
                         dbClient cleanup csvOk appendOnly (cmdFlags true 0))
                  "db" "users" [[doc1]] st (raw "[]")
                  (existing (raw "[]") []) []
                  (OtherError "unexpected end of JSON input")
                  eq_refl eq_refl)).
Defined.

Lemma cmd_Run_ignores_lookup_error_witness :
  let st := cmdState [] (lookupFails unavailable) in
  let x := @cmd.Run schemaOps dbClient (cmdFlags false 0) "db" "users"
             [[doc1]] st in
  result x = Val None /\
  events x = [EvDescribeCollection "db" "users" [] (Some unavailable);
              EvInsert "db" "users" [doc1] None].
Proof.
  intros st x. subst x.
  rewrite (@cmd_Run_ignores_lookup_error schemaOps dbClient (cmdFlags false 0)
             "db" "users" [[doc1]] st [] unavailable (lookupFails unavailable)
             eq_refl).
  split; reflexivity.
Defined.

Lemma evolveIdxSchema_sends_marshalled_sch_witness :
  let st := searchState [] (scripted [Some invalid]) in
  let x := @search.evolveIdxSchema schemaOps searchClient
             (searchFlags true false true) "idx" [doc1] st in
  @Marshal schemaOps (search.sch (final x)) =
    (raw "[" ++ doc1 ++ raw "]", None) /\
  result x = Val (Some invalid).
Proof.
  intros st x.
  destruct (proj2 (@evolveIdxSchema_sends_marshalled_sch schemaOps searchClient
                     (searchFlags true false true) "idx" [doc1] st)
              (EvCreateOrUpdateIndex "idx" (raw "[" ++ doc1 ++ raw "]")
                 (Some invalid))
              (or_intror (or_introl eq_refl)) eq_refl)
    as (b & err & Hev & HM & Hres).
  injection Hev as <- <-. split; [exact HM | exact Hres].
Defined.

Lemma evolveSchema_always_updates_witness :
  let st := cmdState [doc1] (scripted []) in
  let x := @cmd.evolveSchema schemaOps dbClient (cmdFlags true 0) "db" "users"
             [doc1] st in
  cmd.sch (final x) = cmd.sch st /\
  filter isSchemaUpdate (events x) =
    [EvCreateOrUpdateCollection "db" "users" (raw "[" ++ doc1 ++ raw "]") None].
Proof.
  intros st x.
  destruct (@evolveSchema_always_updates schemaOps dbClient (cmdFlags true 0)
              "db" "users" [doc1] st [doc1] (raw "[" ++ doc1 ++ raw "]")
              eq_refl eq_refl) as (err & Hev & _ & Hsch).
  split; [exact Hsch | reflexivity].
Defined.

Lemma evolve_marshal_failure_is_fatal_witness :
  let st := @search.Build_State brokenJSON searchClient [] [] (scripted []) in
  let x := @search.evolveIdxSchema brokenJSON searchClient
             (searchFlags true false true) "idx" [doc1] st in
  result x = Exit (OtherError "unsupported value") /\
  filter isSchemaUpdate (events x) = [].
Proof.
  intros st x.
  destruct (proj1 (@evolve_marshal_failure_is_fatal brokenJSON searchClient
                     dbClient (searchFlags true false true) (cmdFlags true 0))
              "idx" [doc1] st [doc1] []
              (OtherError "unsupported value") eq_refl eq_refl)
    as (H1 & H2 & _).
  split; [exact H1 | exact H2].
Defined.

Lemma search_session_calls_witness :
  let st := searchState [] (existing (raw "[]") [Some invalid]) in
  exists docs, In docs [[doc1; raw "null"]] /\
    map cleanup docs = [doc1; raw "{}"].
Proof.
  intros st.
  destruct (@search_session_calls schemaOps searchClient cleanup csvOk
              (searchFlags false true true) "idx" [[doc1; raw "null"]] st
              (EvCreate "idx" [doc1; raw "{}"] None))
    as [(resp & err & H) | (docs & Hin & [H | [H | [H | H]]])].
  - right. right. left. reflexivity.
  - discriminate H.
  - destruct H as (s & s' & err & H). discriminate H.
  - destruct H as (b & err & H). discriminate H.
  - destruct H as (err & H). injection H as H _.
    destruct Hin as [<- | []]. discriminate H.
  - destruct H as (_ & err & H). injection H as H _.
    exists docs. split; [exact Hin | symmetry; exact H].
Defined.

Lemma cmd_session_calls_witness :
  let st := cmdState [] (scripted [Some invalid]) in
  exists docs, In docs [[doc1]; [doc2]] /\ docs = [doc2].
Proof.
  intros st.
  destruct (@cmd_session_calls schemaOps dbClient (cmdFlags false 0)
              "db" "users" [[doc1]; [doc2]] st
              (EvInsert "db" "users" [doc2] None))
    as [(resp & err & H) | (docs & Hin & [H | [H | H]])].
  - do 5 right. left. reflexivity.
  - discriminate H.
  - destruct H as (s & s' & err & H). discriminate H.
  - destruct H as (b & err & H). discriminate H.
  - destruct H as (err & H). injection H as H _.
    exists docs. split; [exact Hin | symmetry; exact H].
Defined.

Lemma session_call_counts_witness :
  let st := cmdState [] (scripted [Some invalid]) in
  let t := events (@cmd.Run schemaOps dbClient (cmdFlags false 0) "db" "users"
                     [[doc1]; [doc2]] st) in
  (List.length (filter isSubmit t) <= 4)%nat.
Proof.
  intros st t.
  exact (proj2 (proj2 (proj2 (@session_call_counts schemaOps searchClient
                                dbClient cleanup csvOk appendOnly
                                (cmdFlags false 0))
                         "db" "users" [[doc1]; [doc2]] st))).
Defined.

Lemma search_append_session_accepted_witness :
  let st := @search.Build_State schemaOps acceptingSearch [] [] tt in
  events (@search.Run schemaOps acceptingSearch cleanup csvOk
            (searchFlags false true true) "idx" [[doc1]; [doc2; doc3]] st) =
  [EvGetIndex "idx" (raw "[]") None;
   EvCreate "idx" [doc1] None; EvCreate "idx" [doc2; doc3] None].
Proof.
  intros st.
  destruct (@search_append_session_accepted schemaOps acceptingSearch cleanup
              csvOk (searchFlags false true true) "idx" [[doc1]; [doc2; doc3]]
              st (raw "[]") tt [raw "[]"] eq_refl eq_refl eq_refl eq_refl
              eq_refl (fun _ _ => eq_refl)) as (_ & H & _).
  exact H.
Defined.

Lemma cmd_session_accepted_witness :
  let st := @cmd.Build_State schemaOps acceptingDb [] tt in
  let x := @cmd.Run schemaOps acceptingDb (cmdFlags true 0) "db" "users"
             [[doc1]; [doc2; doc3]] st in
  result x = Val None /\ cmd.sch (final x) = [raw "[]"].
Proof.
  intros st x.
  destruct (@cmd_session_accepted schemaOps acceptingDb (cmdFlags true 0)
              "db" "users" [[doc1]; [doc2; doc3]] st (raw "[]") None tt
              eq_refl (fun _ => eq_refl) (fun _ _ => eq_refl))
    as (H1 & _ & H3).
  split; [exact H1 | exact H3].
Defined.

Lemma search_no_options_missing_index_witness :
  let st := searchState [] (lookupFails notFound) in
  events (@search.Run schemaOps searchClient cleanup csvOk search.initFlags
            "idx" [[doc1]] st) =
  [EvGetIndex "idx" [] (Some notFound);
   EvInfer [] "idx" [doc1] [] [] 1 [doc1] None;
   EvCreateOrUpdateIndex "idx" (raw "[" ++ doc1 ++ raw "]") None;
   EvCreate "idx" [doc1] None].
Proof.
  intros st.
  rewrite (proj1 (@search_no_options_missing_index schemaOps searchClient
                    cleanup csvOk "idx" [[doc1]] st [] "index not found"
                    (lookupFails notFound) eq_refl eq_refl)).
  reflexivity.
Defined.

Lemma HasTime_HasUUID_spec_witness :
  scaffold.HasTime "public class User { private Date createdAt; }" = true.
Proof.
  apply (proj1 (HasTime_HasUUID_spec _)).
  exists "public class User { ", " createdAt; }". reflexivity.
Defined.

Lemma HasTime_HasUUID_embedding_witness :
  scaffold.HasUUID "private UUI" = false /\
  scaffold.HasUUID ("class A { " ++ "private UUID id;" ++ " }")%string = true.
Proof.
  destruct HasTime_HasUUID_embedding as (_ & Hu & Hs).
  split.
  - apply (Hs "private UUI"). simpl. lia.
  - apply Hu. reflexivity.
Defined.
